(** * plaid2text: the transaction storage layer

    A shallow embedding of [src/python/plaid2text/storage_manager.py]:
    the [MongoDBStorage] and [SQLiteStorage] back ends, the module
    constant [TEXT_DOC] and the three [serialize_*] adapters, followed by
    the properties of the storage contract that hold (or fail) on them.

    Conventions of the embedding.
    - A Python [dict] with string keys is a [gmap string value]; Python
      values are the inductive [value].
    - A method is a computation in the monad [M S], which threads the
      state [S] of the store and may end in a Python exception.  The
      state reached before an exception is kept, as each write of the
      source is committed on its own.
    - JSON text held in a SQLite column is represented by the value it
      encodes: [json.dumps] is taken to succeed and [json.loads] to give
      the value back, as they do on the JSON values the source writes.
    - Wall-clock readings ([datetime.now()], SQLite's ['now'], the
      [datetime.today()] evaluated when the module is imported) are
      parameters of the operations that read them.
    - Numbers are exact integers: no property below depends on the
      floating-point representation of [amount]. *)

From Stdlib Require Import ZArith String Ascii List Lia ZifyNat.
From stdpp Require Import base option list gmap strings sorting.

Open Scope string_scope.
Open Scope list_scope.
Open Scope nat_scope.

(** ** Dates *)

(** [datetime.date]: year, month, day. *)
Record pydate := mk_date { year : nat; month : nat; day : nat }.

(** [datetime.datetime] (naive, whole seconds): a date and a time of day. *)
Record pydatetime := mk_datetime
  { dt_date : pydate; hour : nat; minute : nat; second : nat }.

(** [datetime.datetime.combine(d, datetime.time())]: [d] at midnight. *)
Definition combine_midnight (d : pydate) : pydatetime :=
  {| dt_date := d; hour := 0; minute := 0; second := 0 |}.

Definition lex (c1 c2 : comparison) : comparison :=
  match c1 with Eq => c2 | _ => c1 end.

Definition date_compare (a b : pydate) : comparison :=
  lex (year a ?= year b) (lex (month a ?= month b) (day a ?= day b)).

Definition datetime_compare (a b : pydatetime) : comparison :=
  lex (date_compare (dt_date a) (dt_date b))
      (lex (hour a ?= hour b) (lex (minute a ?= minute b) (second a ?= second b))).

Definition is_le (c : comparison) : bool :=
  match c with Gt => false | _ => true end.

(** [a <= b] on dates and on datetimes. *)
Definition date_leb (a b : pydate) : bool := is_le (date_compare a b).
Definition datetime_leb (a b : pydatetime) : bool := is_le (datetime_compare a b).

Definition is_leap (y : nat) : bool :=
  ((y mod 4 =? 0) && negb (y mod 100 =? 0)) || (y mod 400 =? 0).

Definition days_in_month (y m : nat) : nat :=
  match m with
  | 2 => if is_leap y then 29 else 28
  | 4 | 6 | 9 | 11 => 30
  | _ => 31
  end.

(** The dates Python can build: [date(y, m, d)] raises on anything else. *)
Definition valid_date (d : pydate) : bool :=
  (1 <=? year d) && (Z.of_nat (year d) <=? 9999)%Z &&
  (1 <=? month d) && (month d <=? 12) &&
  (1 <=? day d) && (day d <=? days_in_month (year d) (month d)).

(** *** ISO-8601 text *)

Definition digit (n : nat) : ascii := ascii_of_nat (48 + n).

Definition pad2 (n : nat) (rest : string) : string :=
  String (digit (n / 10 mod 10)) (String (digit (n mod 10)) rest).

Definition pad4 (n : nat) (rest : string) : string :=
  String (digit (n / 1000 mod 10)) (String (digit (n / 100 mod 10)) (pad2 n rest)).

(** [date.isoformat()]: [YYYY-MM-DD]. *)
Definition date_isoformat (d : pydate) : string :=
  pad4 (year d) (String "-" (pad2 (month d) (String "-" (pad2 (day d) "")))).

(** [datetime.isoformat()]: [YYYY-MM-DDTHH:MM:SS]. *)
Definition time_text (t : pydatetime) (rest : string) : string :=
  pad2 (hour t) (String ":" (pad2 (minute t) (String ":" (pad2 (second t) rest)))).

Definition datetime_isoformat (t : pydatetime) : string :=
  pad4 (year (dt_date t)) (String "-" (pad2 (month (dt_date t)) (String "-"
    (pad2 (day (dt_date t)) (String "T" (time_text t "")))))).

(** [strftime("%Y-%m-%dT%H:%M:%SZ")], also the format string of the
    SQLite statements. *)
Definition strftime_utc (t : pydatetime) : string :=
  pad4 (year (dt_date t)) (String "-" (pad2 (month (dt_date t)) (String "-"
    (pad2 (day (dt_date t)) (String "T" (time_text t "Z")))))).

(** [strftime("%Y")] as the C library of the interpreter writes it: glibc
    does not pad the year, so a year before 1000 comes out with fewer
    than four digits. *)
Definition year_text (y : nat) (rest : string) : string :=
  if y <? 10 then String (digit y) rest
  else if y <? 100 then pad2 y rest
  else if y <? 1000 then String (digit (y / 100 mod 10)) (pad2 y rest)
  else pad4 y rest.

(** [date.strftime("%Y-%m-%d")]. *)
Definition strftime_ymd (d : pydate) : string :=
  year_text (year d)
    (String "-" (pad2 (month d) (String "-" (pad2 (day d) EmptyString)))).

Definition digit_val (c : ascii) : option nat :=
  let n := nat_of_ascii c in
  if (48 <=? n) && (n <=? 57) then Some (n - 48) else None.

Definition num2 (a b : ascii) : option nat :=
  x ← digit_val a; y ← digit_val b; Some (10 * x + y).

Definition num4 (a b c d : ascii) : option nat :=
  x ← num2 a b; y ← num2 c d; Some (100 * x + y).

(** [dateutil.parser.parse] on the text [date.isoformat()] writes; any
    other text is refused (the source only feeds it what
    [serialize_transaction] stored). *)
Definition parse_iso_date (s : string) : option pydate :=
  match s with
  | String y1 (String y2 (String y3 (String y4 (String "-"
      (String m1 (String m2 (String "-" (String d1 (String d2 EmptyString))))))))) =>
      y ← num4 y1 y2 y3 y4; m ← num2 m1 m2; d ← num2 d1 d2;
      let r := mk_date y m d in
      if valid_date r then Some r else None
  | _ => None
  end.

(** ** Python values *)

#[warnings="-register-all"]
Inductive value :=
| VNone
| VBool (b : bool)
| VNum (z : Z)
| VStr (s : string)
| VDate (d : pydate)
| VDateTime (t : pydatetime)
| VList (l : list value)
| VDict (d : gmap string value).

Abbreviation pydict := (gmap string value).

Definition opt_str (o : option string) : value :=
  match o with Some s => VStr s | None => VNone end.

Definition opt_bool (o : option bool) : value :=
  match o with Some b => VBool b | None => VNone end.

(** Truth value of an optional flag in [if mark_pulled:]. *)
Definition truthy (o : option bool) : bool :=
  match o with Some true => true | _ => false end.

(** Truth value of a Python value ([if v:], [not v]). *)
Definition value_truthy (v : value) : bool :=
  match v with
  | VNone => false
  | VBool b => b
  | VNum z => negb (z =? 0)%Z
  | VStr s => negb (String.eqb s "")
  | VDate _ | VDateTime _ => true
  | VList l => negb (Nat.eqb (length l) 0)
  | VDict d => negb (Nat.eqb (size d) 0)
  end.

(** ** Exceptions and the store monad *)

Inductive exn :=
| KeyError (key : string)
| AttributeError (attr : string)
| NameError (name : string)
| IndexError
| TypeError (what : string)
| ValueError (what : string)
| WriteError (path : string).

Definition result (A : Type) : Type := exn + A.

Definition M (S A : Type) : Type := S → S * result A.

#[export] Instance M_ret {S} : MRet (M S) := λ A x s, (s, inr x).

#[export] Instance M_bind {S} : MBind (M S) := λ A B f c s,
  match c s with
  | (s', inr x) => f x s'
  | (s', inl e) => (s', inl e)
  end.

Definition raise {S A} (e : exn) : M S A := λ s, (s, inl e).
Definition get_state {S} : M S S := λ s, (s, inr s).
Definition modify {S} (f : S → S) : M S unit := λ s, (f s, inr tt).

(** A pure step that may raise. *)
Definition lift {S A} (r : result A) : M S A := λ s, (s, r).

(** [for x in l: body x]. *)
Fixpoint for_each {S A} (body : A → M S unit) (l : list A) : M S unit :=
  match l with
  | [] => mret tt
  | x :: l' => body x ≫= λ _, for_each body l'
  end.

(** [d[k]] on a dict. *)
Definition getitem (d : pydict) (k : string) : result value :=
  match d !! k with Some v => inr v | None => inl (KeyError k) end.

(** [d.pop(k)]: the value and the dict without the key. *)
Definition pop (d : pydict) (k : string) : result (value * pydict) :=
  match d !! k with
  | Some v => inr (v, delete k d)
  | None => inl (KeyError k)
  end.

(** ** The upstream objects *)

Module AccountBase.
Record t := mk
  { account_id : string;
    balances : pydict;            (* [obj.balances.to_dict()] *)
    mask : option string;
    name : string;
    official_name : option string;
    type : string;
    subtype : option string;
    verification_status : option string;
    persistent_account_id : option string }.
End AccountBase.

Module Item.
Record t := mk
  { item_id : string;
    webhook : option string;
    available_products : list string;
    billed_products : list string;
    consent_expiration_time : option pydatetime;
    update_type : string;
    institution_id : option string;
    products : list string }.
End Item.

Module Transaction.
(** The declared fields the source reads, and [plaid2text]: the
    additional property [SQLiteStorage.save_transactions] asks for with
    [t.get('plaid2text', None)]; it is absent on objects that come
    from upstream. *)
Record t := mk
  { account_id : string;
    amount : Z;
    iso_currency_code : option string;
    category : option (list string);
    category_id : option string;
    date : pydate;
    name : string;
    pending : bool;
    pending_transaction_id : option string;
    account_owner : option string;
    transaction_id : string;
    authorized_date : option pydate;
    datetime : option pydatetime;
    payment_channel : string;
    plaid2text : option value }.
End Transaction.

Definition str_list (l : list string) : value := VList (VStr <$> l).

Definition opt_list (o : option (list string)) : value :=
  match o with Some l => str_list l | None => VNone end.

(** ** Serialization adapters *)

(** [str(x)] on an optional enum: [str(None)] is the text [None]. *)
Definition str_opt (o : option string) : string :=
  match o with Some s => s | None => "None" end.

Definition serialize_account_base (obj : AccountBase.t) : result pydict :=
  let data : pydict := ∅ in
  let data := <["account_id" := VStr (AccountBase.account_id obj)]> data in
  let data := <["balances" := VDict (AccountBase.balances obj)]> data in
  let data := <["mask" := opt_str (AccountBase.mask obj)]> data in
  let data := <["name" := VStr (AccountBase.name obj)]> data in
  let data := <["official_name" := opt_str (AccountBase.official_name obj)]> data in
  let data := <["type" := VStr (AccountBase.type obj)]> data in
  let data := <["subtype" := VStr (str_opt (AccountBase.subtype obj))]> data in
  let data := <["verification_status" := opt_str (AccountBase.verification_status obj)]> data in
  let data := <["persistent_account_id" := opt_str (AccountBase.persistent_account_id obj)]> data in
  inr data.

Definition serialize_item (obj : Item.t) : result pydict :=
  let data : pydict := ∅ in
  let data := <["item_id" := VStr (Item.item_id obj)]> data in
  let data := <["webhook" := opt_str (Item.webhook obj)]> data in
  let data := <["available_products" := str_list (Item.available_products obj)]> data in
  let data := <["billed_products" := str_list (Item.billed_products obj)]> data in
  let data :=
    match Item.consent_expiration_time obj with
    | Some t => <["consent_expiration_time" := VStr (datetime_isoformat t)]> data
    | None => <["consent_expiration_time" := VNone]> data
    end in
  let data := <["update_type" := VStr (Item.update_type obj)]> data in
  let data := <["institution_id" := opt_str (Item.institution_id obj)]> data in
  let data := <["products" := str_list (Item.products obj)]> data in
  inr data.

(** [obj.authorized_date.isoformat()]: an attribute access on [None]
    when the date is missing. *)
Definition authorized_date_isoformat (o : option pydate) : result string :=
  match o with
  | Some d => inr (date_isoformat d)
  | None => inl (AttributeError "isoformat")
  end.

Definition serialize_transaction (obj : Transaction.t) : result pydict :=
  let data : pydict := ∅ in
  let data := <["account_id" := VStr (Transaction.account_id obj)]> data in
  let data := <["amount" := VNum (Transaction.amount obj)]> data in
  let data := <["iso_currency_code" := opt_str (Transaction.iso_currency_code obj)]> data in
  let data := <["category" := opt_list (Transaction.category obj)]> data in
  let data := <["category_id" := opt_str (Transaction.category_id obj)]> data in
  let data := <["date" := VStr (date_isoformat (Transaction.date obj))]> data in
  let data := <["name" := VStr (Transaction.name obj)]> data in
  let data := <["pending" := VBool (Transaction.pending obj)]> data in
  let data := <["pending_transaction_id" := opt_str (Transaction.pending_transaction_id obj)]> data in
  let data := <["account_owner" := opt_str (Transaction.account_owner obj)]> data in
  let data := <["transaction_id" := VStr (Transaction.transaction_id obj)]> data in
  match authorized_date_isoformat (Transaction.authorized_date obj) with
  | inl e => inl e
  | inr iso =>
      let data := <["authorized_date" := VStr iso]> data in
      let data :=
        match Transaction.datetime obj with
        | Some t => <["datetime" := VStr (datetime_isoformat t)]> data
        | None => <["datetime" := VNone]> data
        end in
      let data := <["payment_channel" := VStr (Transaction.payment_channel obj)]> data in
      inr data
  end.

#[export] Instance result_ret : MRet result := λ A x, inr x.

#[export] Instance result_bind : MBind result := λ A B f r,
  match r with inr x => f x | inl e => inl e end.

(** ** The default export metadata *)

(** The module constant [TEXT_DOC].  Its [date_downloaded] is the value of
    [datetime.datetime.today()] when the module body ran: [today] is that
    reading. *)
Definition TEXT_DOC (today : pydatetime) : pydict :=
  {[ "plaid2text" := VDict (list_to_map
       [ ("tags", VList []);
         ("payee", VStr "");
         ("posting_account", VStr "");
         ("associated_account", VStr "");
         ("date_downloaded", VDateTime today);
         ("date_last_pulled", VStr "");
         ("pulled_to_file", VBool false) ]) ]}.

(** [dict[a][b]...] without raising: the value under a dotted path. *)
Fixpoint lookup_path (path : list string) (v : value) : option value :=
  match path with
  | [] => Some v
  | k :: path' =>
      match v with
      | VDict d => match d !! k with Some w => lookup_path path' w | None => None end
      | _ => None
      end
  end.

(** ** The document-store back end *)

Module MongoDBStorage.

(** [self.account]: the documents of the collection under their [_id];
    the [_id] field itself is put back when a document is read. *)
Abbreviation collection := (gmap string pydict).

(** [Transaction.to_dict()]: every property the object holds. *)
Definition to_dict (t : Transaction.t) : pydict :=
  let d : pydict := list_to_map
    [ ("account_id", VStr (Transaction.account_id t));
      ("amount", VNum (Transaction.amount t));
      ("iso_currency_code", opt_str (Transaction.iso_currency_code t));
      ("category", opt_list (Transaction.category t));
      ("category_id", opt_str (Transaction.category_id t));
      ("date", VDate (Transaction.date t));
      ("name", VStr (Transaction.name t));
      ("pending", VBool (Transaction.pending t));
      ("pending_transaction_id", opt_str (Transaction.pending_transaction_id t));
      ("account_owner", opt_str (Transaction.account_owner t));
      ("transaction_id", VStr (Transaction.transaction_id t));
      ("authorized_date",
         match Transaction.authorized_date t with Some a => VDate a | None => VNone end);
      ("datetime",
         match Transaction.datetime t with Some a => VDateTime a | None => VNone end);
      ("payment_channel", VStr (Transaction.payment_channel t)) ] in
  match Transaction.plaid2text t with
  | Some m => <["plaid2text" := m]> d
  | None => d
  end.

(** [datetime.datetime.combine(v, datetime.time())]. *)
Definition combine (v : value) : result value :=
  match v with
  | VDate d => inr (VDateTime (combine_midnight d))
  | VDateTime t => inr (VDateTime (combine_midnight (dt_date t)))
  | _ => inl (TypeError "combine")
  end.

(** [update_many({'_id': id}, {'$set': set_, '$setOnInsert': on_insert},
    upsert=True)].  The server refuses an update that names one path
    under both operators. *)
Definition update_many_upsert (id : string) (set_ on_insert : pydict)
  : M collection unit :=
  if bool_decide (map_Forall (λ path _, set_ !! path = None) on_insert) then
    modify (λ c : collection,
      match c !! id with
      | Some doc => <[id := set_ ∪ doc]> c
      | None => <[id := set_ ∪ on_insert]> c
      end)
  else raise (WriteError "conflict").

(** [update_one({'_id': id}, {'$set': set_})]: no upsert. *)
Definition update_one (id : value) (set_ : pydict) : M collection unit :=
  modify (λ c : collection,
    match id with
    | VStr s => alter (λ doc, set_ ∪ doc) s c
    | _ => c
    end).

Definition save_transaction (today : pydatetime) (t : Transaction.t)
  : M collection unit :=
  if negb (Transaction.pending t) then
    let t := to_dict t in
    id ← lift (getitem t "transaction_id");
    d ← lift (getitem t "date" ≫= combine);
    let t := <["date" := d]> t in
    let t :=
      match getitem t "authorized_date" ≫= combine with
      | inr a => <["authorized_date" := a]> t
      | inl _ => t                               (* except: pass *)
      end in
    match id with
    | VStr id => update_many_upsert id t (TEXT_DOC today)
    | _ => raise (TypeError "_id")
    end
  else mret tt.

Definition save_transactions (today : pydatetime)
    (transactions : list Transaction.t) : M collection unit :=
  for_each (save_transaction today) transactions.

(** *** Queries *)

Inductive condition :=
| Ne (b : bool)                                  (* {"$ne": b} *)
| Range (gte lte : option pydatetime).           (* {'$gte': .., '$lte': ..} *)

Definition query := list (list string * condition).

Definition holds (doc : pydict) (c : list string * condition) : bool :=
  match c.2, lookup_path c.1 (VDict doc) with
  | Ne b, Some (VBool b') => negb (Bool.eqb b b')
  | Ne _, _ => true
  | Range gte lte, Some (VDateTime x) =>
      from_option (λ g, datetime_leb g x) true gte &&
      from_option (λ l, datetime_leb x l) true lte
  | Range _ _, _ => false
  end.

Definition matches (q : query) (doc : pydict) : bool := forallb (holds doc) q.

(** The documents as a reader sees them, with their [_id]. *)
Definition documents (c : collection) : list pydict :=
  (λ kd, <["_id" := VStr kd.1]> kd.2) <$> map_to_list c.

(** [find(q)]. *)
Definition find (q : query) (c : collection) : list pydict :=
  List.filter (matches q) (documents c).

(** The sort key of [.sort('date', ASCENDING)]: documents without a
    datetime under [date] come first. *)
Definition date_key (doc : pydict) : option pydatetime :=
  match doc !! "date" with Some (VDateTime x) => Some x | _ => None end.

Definition key_le (a b : option pydatetime) : Prop :=
  match a, b with
  | None, _ => True
  | Some _, None => False
  | Some x, Some y => datetime_leb x y = true
  end.

Definition date_le (a b : pydict) : Prop := key_le (date_key a) (date_key b).

#[export] Instance key_le_dec a b : Decision (key_le a b).
Proof. destruct a, b; simpl; apply _. Defined.

#[export] Instance date_le_dec a b : Decision (date_le a b).
Proof. unfold date_le. apply _. Defined.

Definition sort_by_date (l : list pydict) : list pydict := merge_sort date_le l.

Definition pulled_path : list string := ["plaid2text"; "pulled_to_file"].

(** The filter [get_transactions] builds from its arguments. *)
Definition query_of (from_date to_date : option pydate) (only_new : bool) : query :=
  let query : query := [] in
  let query := if only_new then query ++ [(pulled_path, Ne true)] else query in
  let from_date := combine_midnight <$> from_date in
  let to_date := combine_midnight <$> to_date in
  match from_date, to_date with
  | Some f, Some t =>
      if datetime_leb f t
      then query ++ [(["date"], Range (Some f) (Some t))]
      else query
  | Some f, None => query ++ [(["date"], Range (Some f) None)]
  | None, Some t => query ++ [(["date"], Range None (Some t))]
  | None, None => query
  end.

Definition get_transactions (from_date to_date : option pydate) (only_new : bool)
  : M collection (list pydict) :=
  let query := query_of from_date to_date only_new in
  c ← get_state;
  mret (sort_by_date (find query c)).

(** The body of the loop of [update_transaction]. *)
Definition update_entry (now : pydatetime) (mark_pulled : option bool)
    (txn : pydict) : M collection unit :=
  '(id, txn) ← lift (pop txn "transaction_id");
  let txn := <["pulled_to_file" := opt_bool mark_pulled]> txn in
  let txn :=
    if truthy mark_pulled
    then <["date_last_pulled" := VDateTime now]> txn
    else txn in
  update_one id {[ "plaid2text" := VDict txn ]}.

Definition update_transaction (now : pydatetime) (update : list pydict)
    (mark_pulled : option bool) : M collection unit :=
  for_each (update_entry now mark_pulled) update.

(** Whether the account has transactions not yet pulled. *)
Definition check_pending : M collection bool :=
  c ← get_state;
  let unpulled := find [(pulled_path, Ne true)] c in
  mret (0 <? length unpulled).

(** The order of [.sort("date", DESCENDING)]. *)
Definition date_ge (a b : pydict) : Prop := date_le b a.

#[export] Instance date_ge_dec a b : Decision (date_ge a b).
Proof. unfold date_ge. apply _. Defined.

Definition sort_by_date_desc (l : list pydict) : list pydict := merge_sort date_ge l.

(** [list(self.account.find().sort("date", DESCENDING).limit(1))[0]['date']]. *)
Definition get_latest_transaction_date : M collection value :=
  c ← get_state;
  let found := take 1 (sort_by_date_desc (find [] c)) in
  latest ← lift (match found with
                 | doc :: _ => inr doc
                 | [] => inl IndexError
                 end);
  lift (getitem latest "date").

End MongoDBStorage.

(** ** The relational back end *)

(** What a SQL expression evaluates to. *)
Inductive sqlval :=
| SqlNull
| SqlInt (z : Z)
| SqlText (s : string)
| SqlJson (v : value).              (* TEXT holding the JSON of an array or object *)

(** [json_extract(j, '$.key')]. *)
Definition json_extract (j : pydict) (key : string) : sqlval :=
  match j !! key with
  | None | Some VNone => SqlNull
  | Some (VBool b) => SqlInt (if b then 1 else 0)
  | Some (VNum z) => SqlInt z
  | Some (VStr s) => SqlText s
  | Some (VDate d) => SqlText (date_isoformat d)
  | Some (VDateTime t) => SqlText (datetime_isoformat t)
  | Some v => SqlJson v
  end.

(** [x <= y] in a WHERE clause.  A comparison with NULL is not true; an
    integer sorts before any text; text compares byte-wise.  The text of an
    array or object is not rendered here and compares as not true: no row
    written by [save_transactions] holds one under the extracted keys. *)
Definition sql_le (x y : sqlval) : bool :=
  match x, y with
  | SqlInt a, SqlInt b => (a <=? b)%Z
  | SqlInt _, SqlText _ => true
  | SqlText s, SqlText t => String.leb s t
  | _, _ => false
  end.

(** [coalesce(x, false) = false]. *)
Definition sql_is_false (x : sqlval) : bool :=
  match x with
  | SqlNull => true
  | SqlInt z => (z =? 0)%Z
  | _ => false
  end.

(** [len(v)]. *)
Definition len (v : value) : result nat :=
  match v with
  | VStr s => inr (String.length s)
  | VList l => inr (length l)
  | VDict d => inr (size d)
  | _ => inl (TypeError "len")
  end.

(** What [json.dumps] accepts: [None], booleans, numbers, text, and
    lists and mappings of those; a date or a datetime is refused. *)
Fixpoint json_safe (v : value) : bool :=
  match v with
  | VDate _ | VDateTime _ => false
  | VList l => forallb json_safe l
  | VDict d => bool_decide (map_Forall (λ _ (b : bool), b = true) (json_safe <$> d))
  | _ => true
  end.

(** [json.dumps(v)]: the JSON text, held as the value it decodes to. *)
Definition json_dumps (v : value) : result value :=
  if json_safe v then inr v
  else inl (TypeError "Object is not JSON serializable").

(** [json_patch(target, patch)]: RFC 7396 MergePatch.  [patcher patch] is
    the patch as a function of the target. *)
Fixpoint patcher (patch : value) : value → value :=
  match patch with
  | VDict p =>
      let members : gmap string (option (value → value)) :=
        (λ v, match v with VNone => None | _ => Some (patcher v) end) <$> p in
      λ target,
        let t : pydict := match target with VDict t => t | _ => ∅ end in
        VDict (merge (λ old member,
          match member with
          | None => old                               (* key not in the patch *)
          | Some None => None                         (* null: remove the key *)
          | Some (Some f) => Some (f (default VNone old))
          end) t members)
  | _ => λ _, patch
  end.

Definition json_patch (target patch : value) : value := patcher patch target.

Module SQLiteStorage.

(** A row of the table [transactions]. *)
Record row := mk_row
  { account_id : string;
    transaction_id : string;
    created : string;
    updated : string;
    plaid_json : pydict;
    metadata : option value }.

(** What [print] writes. *)
Inductive printed :=
| PrintText (s : string)
| PrintRow (plaid_json : pydict) (metadata : option value).

(** The connection: the table in rowid order, and the console. *)
Record db := mk_db { transactions : list row; stdout : list printed }.

Definition with_table (f : list row → list row) (s : db) : db :=
  {| transactions := f (transactions s); stdout := stdout s |}.

Definition print (p : printed) : M db unit :=
  modify (λ s, {| transactions := transactions s; stdout := stdout s ++ [p] |}).

Definition same_key (act_id trans_id : string) (r : row) : bool :=
  String.eqb (account_id r) act_id && String.eqb (transaction_id r) trans_id.

(** [insert into transactions(...) values(...) on conflict(account_id,
    transaction_id) do update set updated = .., plaid_json =
    excluded.plaid_json, metadata = excluded.metadata]; [now] is the
    text of [strftime(.., 'now')]. *)
Definition upsert (now act_id trans_id : string) (json : pydict)
    (meta : option value) (table : list row) : list row :=
  if existsb (same_key act_id trans_id) table then
    (λ r, if same_key act_id trans_id r
          then {| account_id := account_id r; transaction_id := transaction_id r;
                  created := created r; updated := now;
                  plaid_json := json; metadata := meta |}
          else r) <$> table
  else table ++ [mk_row act_id trans_id now now json meta].

(** [t.get('plaid2text', None)], with the test [is not None]. *)
Definition get_plaid2text (t : Transaction.t) : option value :=
  match Transaction.plaid2text t with
  | Some VNone | None => None
  | Some m => Some m
  end.

(** One iteration: the metadata is serialized first, then the
    transaction, then the statement runs and is committed. *)
Definition save_transaction (now : pydatetime) (t : Transaction.t) : M db unit :=
  let trans_id := Transaction.transaction_id t in
  let act_id := Transaction.account_id t in
  let metadata := get_plaid2text t in
  metadata ← lift (match metadata with
                   | Some m =>
                       match json_dumps m with
                       | inr text => inr (Some text)
                       | inl e => inl e
                       end
                   | None => inr None
                   end);
  json ← lift (serialize_transaction t);
  _ ← lift (json_dumps (VDict json));
  modify (with_table (upsert (strftime_utc now) act_id trans_id json metadata)).

Definition save_transactions (now : pydatetime)
    (transactions : list Transaction.t) : M db unit :=
  for_each (save_transaction now) transactions.

(** *** Queries *)

Inductive condition :=
| NotPulled              (* coalesce(json_extract(plaid_json, '$.pulled_to_file'), false) = false *)
| DateBetween (a b : string)   (* json_extract(plaid_json, '$.date') between ? and ? *)
| DateGe (a : string)          (* json_extract(plaid_json, '$.date') >= ? *)
| DateLe (b : string).         (* json_extract(plaid_json, '$.date') <= ? *)

Definition holds (r : row) (c : condition) : bool :=
  match c with
  | NotPulled => sql_is_false (json_extract (plaid_json r) "pulled_to_file")
  | DateBetween a b =>
      sql_le (SqlText a) (json_extract (plaid_json r) "date") &&
      sql_le (json_extract (plaid_json r) "date") (SqlText b)
  | DateGe a => sql_le (SqlText a) (json_extract (plaid_json r) "date")
  | DateLe b => sql_le (json_extract (plaid_json r) "date") (SqlText b)
  end.

(** [select plaid_json, metadata from transactions where c1 AND c2 ..],
    in rowid order. *)
Definition select (conditions : list condition) (table : list row) : list row :=
  List.filter (λ r, forallb (holds r) conditions) table.

(** The conditions [get_transactions] builds, with their parameters.  In
    the range the bounds are bound as the text of [strftime("%Y-%m-%d")];
    a single bound is bound as the date itself, which the driver's
    adapter for dates writes with [isoformat]. *)
Definition conditions_of (from_date to_date : option pydate) (only_new : bool)
  : list condition :=
  let conditions := [] in
  let conditions := if only_new then conditions ++ [NotPulled] else conditions in
  match from_date, to_date with
  | Some f, Some t =>
      if date_leb f t
      then conditions ++ [DateBetween (strftime_ymd f) (strftime_ymd t)]
      else conditions
  | Some f, None => conditions ++ [DateGe (date_isoformat f)]
  | None, Some t => conditions ++ [DateLe (date_isoformat t)]
  | None, None => conditions
  end.

(** [date_parser.parse(v)]. *)
Definition parse (v : value) : result value :=
  match v with
  | VStr s =>
      match parse_iso_date s with
      | Some d => inr (VDateTime (combine_midnight d))
      | None => inl (ValueError "parse")
      end
  | _ => inl (TypeError "parse")
  end.

(** The body of the loop over the fetched rows. *)
Definition decode (r : row) : result pydict :=
  let t := plaid_json r in
  let t :=
    match metadata r with
    | Some m => <["plaid2text" := m]> t
    | None => <["plaid2text" := VDict ∅]> t
    end in
  p ← getitem t "plaid2text";
  n ← len p;
  let t := if n =? 0 then <["plaid2text" := VNone]> t else t in
  d ← getitem t "date";
  d ← parse d;
  mret (<["date" := d]> t).

(** [for row in transactions: ...; ret.append(t)]. *)
Fixpoint decode_all (rows : list row) : result (list pydict) :=
  match rows with
  | [] => mret []
  | r :: rows' => t ← decode r; ret ← decode_all rows'; mret (t :: ret)
  end.

Definition get_transactions (from_date to_date : option pydate) (only_new : bool)
  : M db (list pydict) :=
  let conditions := conditions_of from_date to_date only_new in
  s ← get_state;
  let transactions := select conditions (transactions s) in
  first ← lift (match transactions with
                | r :: _ => inr r
                | [] => inl IndexError
                end);
  _ ← print (PrintRow (plaid_json first) (metadata first));
  lift (decode_all transactions).

(** The name [null] is bound nowhere in the module. *)
Definition null : M db value := raise (NameError "null").

Definition matches_id (trans_id : value) (r : row) : bool :=
  match trans_id with
  | VStr s => String.eqb (transaction_id r) s
  | _ => false
  end.

(** The body of the loop of [update_transaction]: [update transactions
    set metadata = json_patch(coalesce(metadata, '{}'), ?) where
    transaction_id = ?], after the patch is completed. *)
Definition update_entry (now : pydatetime) (mark_pulled : option bool)
    (txn : pydict) : M db unit :=
  '(trans_id, txn) ← lift (pop txn "transaction_id");
  let txn := <["pulled_to_file" := opt_bool mark_pulled]> txn in
  let txn :=
    if truthy mark_pulled
    then <["date_last_pulled" := VStr (strftime_utc now)]> txn
    else txn in
  archived ← null;
  let txn := <["archived" := archived]> txn in
  modify (with_table (fmap (λ r,
    if matches_id trans_id r
    then {| account_id := account_id r; transaction_id := transaction_id r;
            created := created r; updated := updated r;
            plaid_json := plaid_json r;
            metadata := Some (json_patch (default (VDict ∅) (metadata r)) (VDict txn)) |}
    else r))).

Definition update_transaction (now : pydatetime) (update : list pydict)
    (mark_pulled : option bool) : M db unit :=
  for_each (update_entry now mark_pulled) update.

(** [def check_pending():] takes no parameter, not even [self]: a call
    that passes anything is refused before the body runs. *)
Definition check_pending (args : list value) : M db value :=
  match args with
  | [] =>
      _ ← print (PrintText "This function has not been implemented for SQLite databases");
      mret VNone
  | _ :: _ => raise (TypeError "check_pending() takes 0 positional arguments")
  end.

End SQLiteStorage.

(** ** Sample data *)

Module Sample.

Definition today : pydatetime := mk_datetime (mk_date 2024 1 1) 9 0 0.
Definition now : pydatetime := mk_datetime (mk_date 2024 3 1) 10 30 0.
Definition later : pydatetime := mk_datetime (mk_date 2024 3 2) 8 0 0.

Definition txn (id : string) (d : pydate) (pending : bool)
    (authorized : option pydate) (amount : Z) (meta : option value)
  : Transaction.t :=
  Transaction.mk "A1" amount (Some "USD") (Some ["Food"]) None d "Cafe" pending
    None None id authorized None "in store" meta.

(** A settled purchase. *)
Definition t1 : Transaction.t :=
  txn "T1" (mk_date 2024 1 5) false (Some (mk_date 2024 1 4)) 1250 None.

(** The same purchase with a corrected amount. *)
Definition t1_again : Transaction.t :=
  txn "T1" (mk_date 2024 1 5) false (Some (mk_date 2024 1 4)) 1300 None.

(** A cash withdrawal: no authorized date. *)
Definition t2 : Transaction.t := txn "T2" (mk_date 2024 1 3) false None 300 None.

(** A purchase that has not settled. *)
Definition t3 : Transaction.t :=
  txn "T3" (mk_date 2024 2 1) true (Some (mk_date 2024 1 31)) 700 None.

Definition exported : value :=
  VDict {[ "payee" := VStr "Cafe"; "pulled_to_file" := VBool true ]}.

(** [t1] carrying export metadata of its own. *)
Definition t1_exported : Transaction.t :=
  txn "T1" (mk_date 2024 1 5) false (Some (mk_date 2024 1 4)) 1250 (Some exported).

Definition empty_db : SQLiteStorage.db := SQLiteStorage.mk_db [] [].

(** A patch for [T1] that names the payee only. *)
Definition patch_T1 : pydict :=
  {[ "transaction_id" := VStr "T1"; "payee" := VStr "Cafe" ]}.

(** The collection after [t1] and [t2] were downloaded. *)
Definition stored : MongoDBStorage.collection :=
  (MongoDBStorage.save_transactions today [t1; t2] ∅).1.

(** The table after [t1] was downloaded. *)
Definition stored_db : SQLiteStorage.db :=
  (SQLiteStorage.save_transactions now [t1] empty_db).1.

(** The collection after [T1] was exported and marked. *)
Definition exported_store : MongoDBStorage.collection :=
  (MongoDBStorage.update_transaction now [patch_T1] (Some true) stored).1.

(** A collection another program wrote to: one document, whose metadata
    is the empty mapping. *)
Definition foreign : MongoDBStorage.collection :=
  {[ "T9" := {[ "date" := VDateTime (combine_midnight (mk_date 2024 1 9));
                "plaid2text" := VDict ∅ ]} ]}.

(** [t1] carrying metadata that records a time as a datetime. *)
Definition t1_timed : Transaction.t :=
  txn "T1" (mk_date 2024 1 5) false (Some (mk_date 2024 1 4)) 1250
    (Some (VDict {[ "date_last_pulled" := VDateTime now ]})).

(** The row of [stored_db]. *)
Definition row_T1 : SQLiteStorage.row :=
  match SQLiteStorage.transactions stored_db with
  | r :: _ => r
  | [] => let e := EmptyString in SQLiteStorage.mk_row e e e e ∅ None
  end.

End Sample.

(** ** The contract, in the words of the specification *)

Module Spec.

(** Both bounds given: the inclusive range; only from_date:
    date >= from_date; only to_date: date <= to_date; neither: no date
    filter. *)
Definition date_bound (from_date to_date : option pydate) (d : pydate) : bool :=
  match from_date, to_date with
  | Some f, Some t => date_leb f d && date_leb d t
  | Some f, None => date_leb f d
  | None, Some t => date_leb d t
  | None, None => true
  end.

(** The default metadata: tags empty, payee, posting_account and
    associated_account the empty text, date_downloaded now,
    date_last_pulled null, pulled_to_file false. *)
Definition default_metadata (now : pydatetime) : pydict :=
  list_to_map
    [ ("tags", VList []);
      ("payee", VStr "");
      ("posting_account", VStr "");
      ("associated_account", VStr "");
      ("date_downloaded", VDateTime now);
      ("date_last_pulled", VNone);
      ("pulled_to_file", VBool false) ].

End Spec.

(** ** Observations on a store *)

(** What the stored rows hold under a key of the core JSON, and their
    metadata column. *)
Definition core_field (key : string) (s : SQLiteStorage.db) : list (option value) :=
  (λ r, SQLiteStorage.plaid_json r !! key) <$> SQLiteStorage.transactions s.

Definition metadata_column (s : SQLiteStorage.db) : list (option value) :=
  SQLiteStorage.metadata <$> SQLiteStorage.transactions s.

(** What the returned records hold under a key. *)
Definition field (key : string) (ret : result (list pydict)) : result (list (option value)) :=
  match ret with
  | inr l => inr ((λ t : pydict, t !! key) <$> l)
  | inl e => inl e
  end.

(** The export metadata of a stored or returned document. *)
Definition metadata_of (doc : pydict) : option value := doc !! "plaid2text".

(** A field of the export metadata. *)
Definition metadata_field (key : string) (doc : pydict) : option value :=
  lookup_path ["plaid2text"; key] (VDict doc).

(** Not marked as pulled: what [only_new] keeps in the document store. *)
Definition not_pulled (doc : pydict) : bool :=
  match metadata_field "pulled_to_file" doc with
  | Some (VBool true) => false
  | _ => true
  end.

(** The stored timestamp lies between two optional bounds. *)
Definition date_within (lo hi : option pydatetime) (doc : pydict) : bool :=
  match MongoDBStorage.date_key doc with
  | Some x =>
      from_option (λ l, datetime_leb l x) true lo &&
      from_option (λ h, datetime_leb x h) true hi
  | None => false
  end.

(** The date filter of the document store: as [Spec.date_bound] on the
    stored timestamps, except that two bounds in the wrong order filter
    nothing. *)
Definition date_filter (from_date to_date : option pydate) (doc : pydict) : bool :=
  match from_date, to_date with
  | Some f, Some t =>
      if date_leb f t
      then date_within (Some (combine_midnight f)) (Some (combine_midnight t)) doc
      else true
  | Some f, None => date_within (Some (combine_midnight f)) None doc
  | None, Some t => date_within None (Some (combine_midnight t)) doc
  | None, None => true
  end.

(** The date filter on a date: as [Spec.date_bound], except that two
    bounds in the wrong order filter nothing. *)
Definition bounds_filter (from_date to_date : option pydate) (d : pydate) : bool :=
  match from_date, to_date with
  | Some f, Some t => if date_leb f t then date_leb f d && date_leb d t else true
  | _, _ => Spec.date_bound from_date to_date d
  end.

(** The sub-document [update_transaction] stores for a patch: the patch
    without its [transaction_id], with the pulled mark and, when the mark
    is true, the time of the call. *)
Definition stamp (now : pydatetime) (mark_pulled : option bool) (txn : pydict) : pydict :=
  let txn := delete "transaction_id" txn in
  let txn := <["pulled_to_file" := opt_bool mark_pulled]> txn in
  if truthy mark_pulled then <["date_last_pulled" := VDateTime now]> txn else txn.

(** The patch is for the transaction [id]. *)
Definition targets (id : string) (txn : pydict) : bool :=
  match txn !! "transaction_id" with
  | Some (VStr s) => String.eqb s id
  | _ => false
  end.

(** The last patch of an update that is for [id]. *)
Definition last_patch (id : string) (update : list pydict) : option pydict :=
  last (List.filter (targets id) update).

(** The collections the document store can be in: empty at first, then
    changed by its two writers only. *)
Inductive reachable : MongoDBStorage.collection → Prop :=
| reachable_empty : reachable ∅
| reachable_save today transactions c :
    reachable c →
    reachable (MongoDBStorage.save_transactions today transactions c).1
| reachable_update now update mark_pulled c :
    reachable c →
    reachable (MongoDBStorage.update_transaction now update mark_pulled c).1.

(** The row was written from a transaction dated [d]. *)
Definition stored_on (d : pydate) (r : SQLiteStorage.row) : Prop :=
  valid_date d = true ∧
  SQLiteStorage.plaid_json r !! "date" = Some (VStr (date_isoformat d)).

(** What [only_new] keeps in the relational store: rows whose core JSON
    has no true [pulled_to_file]. *)
Definition core_not_pulled (r : SQLiteStorage.row) : bool :=
  sql_is_false (json_extract (SQLiteStorage.plaid_json r) "pulled_to_file").

(** An optional bound is a date Python can build. *)
Definition valid_bound (o : option pydate) : Prop :=
  match o with Some d => valid_date d = true | None => True end.

(** The computation ended without an exception. *)
Definition returns {S A} (x : S * result A) : bool :=
  match x.2 with inr _ => true | inl _ => false end.

(** What makes a three-way comparison an order. *)
Record ordering {A} (cmp : A → A → comparison) : Prop := mk_ordering
  { cmp_eq_l : ∀ a b c, cmp a b = Eq → cmp a c = cmp b c;
    cmp_eq_r : ∀ a b c, cmp b c = Eq → cmp a c = cmp a b;
    cmp_lt_trans : ∀ a b c, cmp a b = Lt → cmp b c = Lt → cmp a c = Lt;
    cmp_opp : ∀ a b, cmp b a = CompOpp (cmp a b) }.

(** ** Observations for the wider contract *)

(** The document [save_transactions] sends under [$set]: the
    transaction as a mapping, its date, and its authorized date when it
    has one, turned into timestamps at midnight. *)
Definition normalized (t : Transaction.t) : pydict :=
  let d := <["date" := VDateTime (combine_midnight (Transaction.date t))]>
             (MongoDBStorage.to_dict t) in
  match Transaction.authorized_date t with
  | Some a => <["authorized_date" := VDateTime (combine_midnight a)]> d
  | None => d
  end.

(** The transaction is one the save writes: settled. *)
Definition settled (t : Transaction.t) : bool := negb (Transaction.pending t).

(** The ids of the settled transactions of a batch. *)
Definition settled_ids (transactions : list Transaction.t) : gset string :=
  list_to_set (Transaction.transaction_id <$> List.filter settled transactions).

(** The natural key of a row. *)
Definition row_key (r : SQLiteStorage.row) : string * string :=
  (SQLiteStorage.account_id r, SQLiteStorage.transaction_id r).

(** The natural key of a transaction. *)
Definition txn_key (t : Transaction.t) : string * string :=
  (Transaction.account_id t, Transaction.transaction_id t).

(** The row with a given key, if any. *)
Definition find_row (key : string * string) (s : SQLiteStorage.db)
  : option SQLiteStorage.row :=
  List.find (SQLiteStorage.same_key key.1 key.2) (SQLiteStorage.transactions s).

(** A row as [save_transactions] writes it from a transaction with a date
    Python can build: the core JSON is a serialized transaction, and the
    metadata column is NULL or holds a mapping. *)
Definition well_formed_row (r : SQLiteStorage.row) : Prop :=
  (∃ t, serialize_transaction t = inr (SQLiteStorage.plaid_json r) ∧
        valid_date (Transaction.date t) = true) ∧
  (SQLiteStorage.metadata r = None ∨
   ∃ m, SQLiteStorage.metadata r = Some (VDict m)).

(** [json.dumps] accepts the metadata the transaction carries, if any. *)
Definition metadata_safe (t : Transaction.t) : bool :=
  from_option json_safe true (SQLiteStorage.get_plaid2text t).

(** A transaction the relational save accepts and the query reads back:
    it has an authorized date, a date Python can build, and metadata of
    its own, if any, that is a mapping [json.dumps] accepts. *)
Definition storable (t : Transaction.t) : Prop :=
  is_Some (Transaction.authorized_date t) ∧
  valid_date (Transaction.date t) = true ∧
  metadata_safe t = true ∧
  (SQLiteStorage.get_plaid2text t = None ∨
   ∃ m, SQLiteStorage.get_plaid2text t = Some (VDict m)).

(** The bounds of a range have years of four digits, which [strftime]
    writes as [isoformat] does. *)
Definition four_digit_range (from_date to_date : option pydate) : Prop :=
  match from_date, to_date with
  | Some f, Some t => 1000 ≤ year f ∧ 1000 ≤ year t
  | _, _ => True
  end.

(** [len(v) == 0]. *)
Definition is_empty (v : value) : bool :=
  match len v with inr 0 => true | _ => false end.

(** The metadata a reader of the relational store is shown for a
    metadata column: [None] for NULL and for anything empty, the decoded
    column otherwise. *)
Definition shown_metadata (column : option value) : value :=
  match column with
  | Some m => if is_empty m then VNone else m
  | None => VNone
  end.

(** The record is the one of the row: its core fields are those of the
    core JSON, its date is the date text of the core JSON, parsed, and
    its metadata is the metadata column as shown. *)
Definition record_of (r : SQLiteStorage.row) (t : pydict) : Prop :=
  (∀ k, k ≠ "date" → k ≠ "plaid2text" → t !! k = SQLiteStorage.plaid_json r !! k) ∧
  (∃ text d, SQLiteStorage.plaid_json r !! "date" = Some (VStr text) ∧
             parse_iso_date text = Some d ∧
             t !! "date" = Some (VDateTime (combine_midnight d))) ∧
  metadata_of t = Some (shown_metadata (SQLiteStorage.metadata r)).

(** The tables the relational store can hold: empty at first, then
    changed by its methods only. *)
Inductive written : SQLiteStorage.db → Prop :=
| written_empty out : written (SQLiteStorage.mk_db [] out)
| written_save now transactions s :
    written s →
    written (SQLiteStorage.save_transactions now transactions s).1
| written_get from_date to_date only_new s :
    written s →
    written (SQLiteStorage.get_transactions from_date to_date only_new s).1
| written_update now update mark_pulled s :
    written s →
    written (SQLiteStorage.update_transaction now update mark_pulled s).1
| written_check_pending args s :
    written s →
    written (SQLiteStorage.check_pending args s).1.

(** ** Running computations *)

Ltac run :=
  unfold mbind, M_bind, mret, M_ret, lift, raise, get_state, modify,
    result_bind, result_ret in *; simpl in *.

Lemma for_each_nil {S A} (body : A → M S unit) (s : S) :
  for_each body [] s = (s, inr tt).
Proof. reflexivity. Qed.

Lemma for_each_cons {S A} (body : A → M S unit) x l (s : S) :
  for_each body (x :: l) s =
  match body x s with
  | (s', inr _) => for_each body l s'
  | (s', inl e) => (s', inl e)
  end.
Proof. reflexivity. Qed.

Lemma for_each_app {S A} (body : A → M S unit) l1 l2 (s : S) :
  for_each body (l1 ++ l2) s =
  match for_each body l1 s with
  | (s', inr _) => for_each body l2 s'
  | (s', inl e) => (s', inl e)
  end.
Proof.
  revert s. induction l1 as [|x l1 IH]; intros s; [done|].
  simpl app. rewrite !for_each_cons. destruct (body x s) as [s' [e|[]]]; [done|]. apply IH.
Qed.

(** A property of the state that every iteration keeps is kept by the
    loop, whether or not it runs to its end. *)
Lemma for_each_invariant {S A} (P : S → Prop) (body : A → M S unit) l :
  (∀ x s, P s → P (body x s).1) →
  ∀ s, P s → P (for_each body l s).1.
Proof.
  intros Hbody. induction l as [|x l IH]; intros s Hs; [done|].
  rewrite for_each_cons. specialize (Hbody x s Hs).
  destruct (body x s) as [s' [e|[]]]; [done|]. by apply IH.
Qed.

Lemma returns_inr {S A} (x : S * result A) :
  returns x = true → ∃ s' ret, x = (s', inr ret).
Proof. destruct x as [s' [e|ret]]; [done|]. eauto. Qed.

(** A loop whose iterations all return returns. *)
Lemma for_each_returns {S A} (P : A → Prop) (body : A → M S unit) l :
  (∀ x s, P x → ∃ s', body x s = (s', inr tt)) →
  Forall P l → ∀ s, ∃ s', for_each body l s = (s', inr tt).
Proof.
  intros Hbody. induction 1 as [|x l Hx _ IH]; intros s; [by eexists|].
  rewrite for_each_cons. destruct (Hbody x s Hx) as [s' ->]. apply IH.
Qed.

(** ** The relational [check_pending] *)

(** C7, as stated, fails: called the way it is declared, the relational
    [check_pending] returns normally, with [None], which a caller testing
    the answer reads as "nothing pending". *)
Lemma sqlite_check_pending_returns_none :
  (SQLiteStorage.check_pending [] Sample.empty_db).2 = inr VNone ∧
  value_truthy VNone = false.
Proof. split; reflexivity. Qed.

(** C7 (amended): the relational [check_pending] is a stub.  Invoked with
    no argument, as declared, it writes the line "This function has not
    been implemented for SQLite databases" to the console, leaves the
    table alone, raises nothing and returns [None]. *)
Theorem sqlite_check_pending_stub (s : SQLiteStorage.db) :
  SQLiteStorage.check_pending [] s =
  ({| SQLiteStorage.transactions := SQLiteStorage.transactions s;
      SQLiteStorage.stdout := SQLiteStorage.stdout s ++
        [SQLiteStorage.PrintText
           "This function has not been implemented for SQLite databases"] |},
   inr VNone).
Proof. reflexivity. Qed.

(** Bound to an instance, the call passes [self] to a function that takes
    nothing. *)
Lemma sqlite_check_pending_bound (self : value) (s : SQLiteStorage.db) :
  ∃ msg, SQLiteStorage.check_pending [self] s = (s, inl (TypeError msg)).
Proof. by eexists. Qed.

(** ** The relational [get_transactions] on an empty selection *)

(** The relational [get_transactions], step by step: fetch, index the
    first row and print it, decode every row. *)
Lemma sqlite_get_transactions_run
    (from_date to_date : option pydate) (only_new : bool) (s : SQLiteStorage.db) :
  SQLiteStorage.get_transactions from_date to_date only_new s =
  match SQLiteStorage.select (SQLiteStorage.conditions_of from_date to_date only_new)
          (SQLiteStorage.transactions s) with
  | [] => (s, inl IndexError)
  | first :: rest =>
      ({| SQLiteStorage.transactions := SQLiteStorage.transactions s;
          SQLiteStorage.stdout := SQLiteStorage.stdout s ++
            [SQLiteStorage.PrintRow (SQLiteStorage.plaid_json first)
               (SQLiteStorage.metadata first)] |},
       SQLiteStorage.decode_all (first :: rest))
  end.
Proof.
  unfold SQLiteStorage.get_transactions, SQLiteStorage.print. run.
  by destruct (SQLiteStorage.select _ _).
Qed.

(** C10: the relational [get_transactions] indexes the first fetched row
    before it looks at anything else.  A call whose query selects no row
    ends in [IndexError] with the connection as it was, so a call that
    returns has selected at least one row; on an empty table every call
    fails. *)
Theorem sqlite_get_transactions_first_row
    (from_date to_date : option pydate) (only_new : bool) (s : SQLiteStorage.db) :
  let rows :=
    SQLiteStorage.select (SQLiteStorage.conditions_of from_date to_date only_new)
      (SQLiteStorage.transactions s) in
  (rows = [] →
     SQLiteStorage.get_transactions from_date to_date only_new s = (s, inl IndexError)) ∧
  (∀ s' ret,
     SQLiteStorage.get_transactions from_date to_date only_new s = (s', inr ret) →
     rows ≠ []) ∧
  (SQLiteStorage.transactions s = [] →
     SQLiteStorage.get_transactions from_date to_date only_new s = (s, inl IndexError)).
Proof.
  intros rows. rewrite sqlite_get_transactions_run. fold rows.
  split; [by intros ->|]. split.
  - intros s' ret Hret ->. discriminate.
  - intros Hempty. unfold rows. by rewrite Hempty.
Qed.

Lemma sqlite_get_transactions_first_row_witness :
  SQLiteStorage.get_transactions None None true Sample.empty_db
    = (Sample.empty_db, inl IndexError) ∧
  SQLiteStorage.select (SQLiteStorage.conditions_of None None true)
    (SQLiteStorage.transactions Sample.stored_db) ≠ [].
Proof.
  split.
  - apply (sqlite_get_transactions_first_row None None true Sample.empty_db).
    reflexivity.
  - destruct (returns_inr
                (SQLiteStorage.get_transactions None None true Sample.stored_db))
      as (s' & ret & Hget); [by vm_compute|].
    exact (proj1 (proj2 (sqlite_get_transactions_first_row None None true
                           Sample.stored_db)) s' ret Hget).
Defined.

(** ** Where the relational back end departs from the contract *)

(** C1 on the relational back end: a row whose metadata records an export
    is saved again from a fresh download.  The statement runs its ON
    CONFLICT branch, which assigns [metadata = excluded.metadata]: the core
    amount is updated and the stored metadata is replaced by the
    [NULL] the download carries. *)
Theorem sqlite_resave_resets_metadata :
  let s1 := (SQLiteStorage.save_transactions Sample.now [Sample.t1_exported]
               Sample.empty_db).1 in
  let s2 := (SQLiteStorage.save_transactions Sample.later [Sample.t1_again] s1).1 in
  metadata_column s1 = [Some Sample.exported] ∧
  core_field "amount" s1 = [Some (VNum 1250)] ∧
  core_field "amount" s2 = [Some (VNum 1300)] ∧
  metadata_column s2 = [None].
Proof. vm_compute. done. Qed.

(** C2 on the relational back end: [update_transaction] stops at the
    unbound name [null] before it writes anything, so the row is as it
    was and [get_transactions(only_new=True)] still returns it.  The
    [only_new] condition moreover reads [pulled_to_file] from the core
    JSON, where it never is: a row whose metadata says it was exported is
    returned as new. *)
Theorem sqlite_update_then_still_new :
  SQLiteStorage.update_transaction Sample.now [Sample.patch_T1] (Some true)
    Sample.stored_db = (Sample.stored_db, inl (NameError "null")) ∧
  field "transaction_id"
    (SQLiteStorage.get_transactions None None true Sample.stored_db).2
    = inr [Some (VStr "T1")] ∧
  let s := (SQLiteStorage.save_transactions Sample.now [Sample.t1_exported]
              Sample.empty_db).1 in
  metadata_column s = [Some Sample.exported] ∧
  field "transaction_id" (SQLiteStorage.get_transactions None None true s).2
    = inr [Some (VStr "T1")].
Proof. vm_compute. done. Qed.

(** C3 on the relational back end: [save_transactions] has no test of
    [pending]; a pending transaction is written and read back. *)
Theorem sqlite_saves_pending :
  let s := (SQLiteStorage.save_transactions Sample.now [Sample.t3]
              Sample.empty_db).1 in
  Transaction.pending Sample.t3 = true ∧
  core_field "pending" s = [Some (VBool true)] ∧
  field "pending" (SQLiteStorage.get_transactions None None false s).2
    = inr [Some (VBool true)] ∧
  (MongoDBStorage.save_transactions Sample.today [Sample.t3] ∅).1 = ∅.
Proof. vm_compute. done. Qed.

(** C6: [serialize_transaction] calls [isoformat] on an [authorized_date]
    that is [None] and raises; in a relational batch the records after it
    are not saved, where the document store saves them all. *)
Theorem serialize_transaction_without_authorized_date :
  Transaction.authorized_date Sample.t2 = None ∧
  serialize_transaction Sample.t2 = inl (AttributeError "isoformat") ∧
  SQLiteStorage.save_transactions Sample.now [Sample.t2; Sample.t1] Sample.empty_db
    = (Sample.empty_db, inl (AttributeError "isoformat")) ∧
  (MongoDBStorage.save_transactions Sample.today [Sample.t2; Sample.t1] ∅).2 = inr tt ∧
  dom (MongoDBStorage.save_transactions Sample.today [Sample.t2; Sample.t1] ∅).1
    = ({[ "T1"; "T2" ]} : gset string).
Proof. vm_compute. done. Qed.

(** ** The order on dates *)

Section comparisons.
Context {A : Type}.

Lemma lex_eq c1 c2 : lex c1 c2 = Eq ↔ c1 = Eq ∧ c2 = Eq.
Proof. destruct c1, c2; simpl; intuition congruence. Qed.

Lemma lex_lt c1 c2 : lex c1 c2 = Lt ↔ c1 = Lt ∨ (c1 = Eq ∧ c2 = Lt).
Proof. destruct c1, c2; simpl; intuition congruence. Qed.

Lemma ordering_lex (f g : A → A → comparison) :
  ordering f → ordering g → ordering (λ a b, lex (f a b) (g a b)).
Proof.
  intros [fl fr ft fo] [gl gr gt go]. split.
  - intros a b c [Hf Hg]%lex_eq. by rewrite (fl a b c Hf), (gl a b c Hg).
  - intros a b c [Hf Hg]%lex_eq. by rewrite (fr a b c Hf), (gr a b c Hg).
  - intros a b c [Hf|[Hf Hg]]%lex_lt [Hf'|[Hf' Hg']]%lex_lt; apply lex_lt.
    + left. eauto.
    + left. by rewrite (fr a b c Hf').
    + left. by rewrite (fl a b c Hf).
    + right. split; [by rewrite (fl a b c Hf)|eauto].
  - intros a b. rewrite (fo a b), (go a b).
    by destruct (f a b), (g a b).
Qed.

Lemma ordering_le_trans (cmp : A → A → comparison) a b c :
  ordering cmp → is_le (cmp a b) = true → is_le (cmp b c) = true →
  is_le (cmp a c) = true.
Proof.
  intros [l r t o] Hab Hbc.
  destruct (cmp a b) eqn:Eab; [by rewrite (l a b c Eab)| |done].
  destruct (cmp b c) eqn:Ebc; [by rewrite (r a b c Ebc), Eab| |done].
  by rewrite (t a b c Eab Ebc).
Qed.

Lemma ordering_le_total (cmp : A → A → comparison) a b :
  ordering cmp → is_le (cmp a b) = true ∨ is_le (cmp b a) = true.
Proof. intros [l r t o]. rewrite (o a b). destruct (cmp a b); auto. Qed.

Lemma ordering_le_refl (cmp : A → A → comparison) a : ordering cmp → is_le (cmp a a) = true.
Proof.
  intros [l r t o]. specialize (o a a). by destruct (cmp a a).
Qed.
End comparisons.

Lemma ordering_on {A B} (proj : A → B) (cmp : B → B → comparison) :
  ordering cmp → ordering (λ a b, cmp (proj a) (proj b)).
Proof. intros [l r t o]. split; eauto. Qed.

Lemma nat_ordering : ordering Nat.compare.
Proof.
  split.
  - intros a b c ->%Nat.compare_eq_iff. done.
  - intros a b c ->%Nat.compare_eq_iff. done.
  - intros a b c ?%Nat.compare_lt_iff ?%Nat.compare_lt_iff.
    apply Nat.compare_lt_iff. lia.
  - intros a b. apply Nat.compare_antisym.
Qed.

Lemma date_ordering : ordering date_compare.
Proof.
  apply (ordering_lex (λ a b, year a ?= year b)
           (λ a b, lex (month a ?= month b) (day a ?= day b))).
  - apply (ordering_on year), nat_ordering.
  - apply (ordering_lex (λ a b, month a ?= month b) (λ a b, day a ?= day b)).
    + apply (ordering_on month), nat_ordering.
    + apply (ordering_on day), nat_ordering.
Qed.

Lemma datetime_ordering : ordering datetime_compare.
Proof.
  apply (ordering_lex (λ a b, date_compare (dt_date a) (dt_date b))
           (λ a b, lex (hour a ?= hour b)
                     (lex (minute a ?= minute b) (second a ?= second b)))).
  - apply (ordering_on dt_date), date_ordering.
  - apply (ordering_lex (λ a b, hour a ?= hour b)
             (λ a b, lex (minute a ?= minute b) (second a ?= second b))).
    + apply (ordering_on hour), nat_ordering.
    + apply (ordering_lex (λ a b, minute a ?= minute b) (λ a b, second a ?= second b)).
      * apply (ordering_on minute), nat_ordering.
      * apply (ordering_on second), nat_ordering.
Qed.

(** Two dates compare as their midnights do. *)
Lemma combine_midnight_leb (a b : pydate) :
  datetime_leb (combine_midnight a) (combine_midnight b) = date_leb a b.
Proof.
  unfold datetime_leb, date_leb, datetime_compare. simpl.
  by destruct (date_compare a b).
Qed.

#[export] Instance date_le_trans : Transitive MongoDBStorage.date_le.
Proof.
  intros a b c. unfold MongoDBStorage.date_le, MongoDBStorage.key_le.
  destruct (MongoDBStorage.date_key a), (MongoDBStorage.date_key b),
    (MongoDBStorage.date_key c); try done.
  apply ordering_le_trans, datetime_ordering.
Qed.

#[export] Instance date_le_total : Total MongoDBStorage.date_le.
Proof.
  intros a b. unfold MongoDBStorage.date_le, MongoDBStorage.key_le.
  destruct (MongoDBStorage.date_key a), (MongoDBStorage.date_key b); auto.
  apply ordering_le_total, datetime_ordering.
Qed.

(** ** Reading from the document store *)

(** The filter built by [get_transactions] is the conjunction of the
    [only_new] test and the date filter. *)
Lemma mongo_matches_query_of from_date to_date only_new (doc : pydict) :
  MongoDBStorage.matches (MongoDBStorage.query_of from_date to_date only_new) doc =
  (if only_new then not_pulled doc else true) && date_filter from_date to_date doc.
Proof.
  assert (Hnew : MongoDBStorage.holds doc
                   (MongoDBStorage.pulled_path, MongoDBStorage.Ne true)
                 = not_pulled doc).
  { unfold MongoDBStorage.holds, not_pulled, metadata_field,
      MongoDBStorage.pulled_path. simpl.
    destruct (doc !! "plaid2text") as [[]|]; try done.
    destruct (d !! "pulled_to_file") as [[| [] | | | | | |]|]; done. }
  assert (Hdate : ∀ lo hi,
    MongoDBStorage.holds doc (["date"], MongoDBStorage.Range lo hi)
    = date_within lo hi doc).
  { intros lo hi. unfold MongoDBStorage.holds, date_within, MongoDBStorage.date_key.
    simpl. by destruct (doc !! "date") as [[]|]. }
  unfold MongoDBStorage.query_of, MongoDBStorage.matches, date_filter.
  destruct only_new, from_date as [f|], to_date as [t|]; simpl;
    rewrite ?combine_midnight_leb; try destruct (date_leb f t); simpl;
    rewrite ?Hnew, ?Hdate, ?andb_true_r; done.
Qed.

(** [get_transactions] never fails and leaves the collection alone; what
    it returns is sorted by date and holds the stored documents that
    pass the filter, no other. *)
Lemma mongo_get_transactions_spec from_date to_date only_new
    (c : MongoDBStorage.collection) :
  ∃ ret,
    MongoDBStorage.get_transactions from_date to_date only_new c = (c, inr ret) ∧
    StronglySorted MongoDBStorage.date_le ret ∧
    ∀ doc, doc ∈ ret ↔
      doc ∈ MongoDBStorage.documents c ∧
      (only_new = true → not_pulled doc = true) ∧
      date_filter from_date to_date doc = true.
Proof.
  eexists. split; [reflexivity|]. split.
  - apply (StronglySorted_merge_sort _).
  - intros doc. unfold MongoDBStorage.sort_by_date, MongoDBStorage.find.
    rewrite merge_sort_Permutation, list_elem_of_In, filter_In, <-list_elem_of_In,
      mongo_matches_query_of, andb_true_iff.
    destruct only_new; simpl; (split; intros (?&?&?); split_and!; auto; discriminate).
Qed.

(** The stored documents are the entries of the collection with their
    [_id] put back. *)
Lemma elem_of_documents (c : MongoDBStorage.collection) (doc : pydict) :
  doc ∈ MongoDBStorage.documents c ↔
  ∃ id fields, c !! id = Some fields ∧ doc = <["_id" := VStr id]> fields.
Proof.
  unfold MongoDBStorage.documents. rewrite list_elem_of_fmap. split.
  - intros [[id fields] [-> Hin%elem_of_map_to_list]]. eauto.
  - intros (id & fields & Hin & ->). exists (id, fields).
    split; [done|]. by apply elem_of_map_to_list.
Qed.

(** ** ISO-8601 text and the order on dates *)

(** Goals about decimal digits: quotients and remainders by constants. *)
Ltac divmod := zify; Z.to_euclidean_division_equations; lia.

Lemma digits2 n : n < 100 → n = 10 * (n / 10 mod 10) + n mod 10.
Proof. intros. divmod. Qed.
Lemma digits4 n : (Z.of_nat n <= 9999)%Z →
  n = 1000 * (n / 1000 mod 10) + 100 * (n / 100 mod 10) + 10 * (n / 10 mod 10) + n mod 10.
Proof. intros. divmod. Qed.
Lemma digit_compare i j : i < 10 → j < 10 → Ascii.compare (digit i) (digit j) = (i ?= j).
Proof.
  intros Hi Hj. unfold Ascii.compare, digit.
  rewrite <-(N2Nat.id (N_of_ascii (ascii_of_nat (48 + i)))),
          <-(N2Nat.id (N_of_ascii (ascii_of_nat (48 + j)))).
  change (N.to_nat (N_of_ascii ?a)) with (nat_of_ascii a).
  rewrite !nat_ascii_embedding by lia.
  rewrite <-Nat2N.inj_compare.
  destruct (Nat.compare_spec i j), (Nat.compare_spec (48 + i) (48 + j)); try done; lia.
Qed.
Lemma compare_cons a b r s :
  String.compare (String a r) (String b s) = lex (Ascii.compare a b) (String.compare r s).
Proof. simpl. by destruct (Ascii.compare a b). Qed.
Lemma compare_digit_cons i j r1 r2 :
  i < 10 → j < 10 →
  String.compare (String (digit i) r1) (String (digit j) r2) = lex (i ?= j) (String.compare r1 r2).
Proof.
  intros Hi Hj. by rewrite compare_cons, digit_compare.
Qed.
Lemma lex_digits (k a b a' b' : nat) rest :
  b < k → b' < k →
  lex (a ?= a') (lex (b ?= b') rest) = lex (k * a + b ?= k * a' + b') rest.
Proof.
  intros. destruct (Nat.compare_spec a a'), (Nat.compare_spec b b'),
   (Nat.compare_spec (k * a + b) (k * a' + b')); simpl; try done; nia.
Qed.
Lemma pad2_compare n m r1 r2 : n < 100 → m < 100 →
  String.compare (pad2 n r1) (pad2 m r2) = lex (n ?= m) (String.compare r1 r2).
Proof.
  intros Hn Hm. unfold pad2.
  rewrite !compare_digit_cons by (apply Nat.mod_upper_bound; lia).
  rewrite (lex_digits 10) by (apply Nat.mod_upper_bound; lia).
  rewrite <-(digits2 n), <-(digits2 m); done.
Qed.
Lemma pad4_compare n m r1 r2 : (Z.of_nat n <= 9999)%Z → (Z.of_nat m <= 9999)%Z →
  String.compare (pad4 n r1) (pad4 m r2) = lex (n ?= m) (String.compare r1 r2).
Proof.
  intros Hn Hm. unfold pad4, pad2.
  rewrite !compare_digit_cons by (apply Nat.mod_upper_bound; lia).
  rewrite (lex_digits 10 (n / 10 mod 10)) by (apply Nat.mod_upper_bound; lia).
  rewrite (lex_digits 100 (n / 100 mod 10)) by divmod.
  rewrite (lex_digits 1000 (n / 1000 mod 10)) by divmod.
  f_equal. f_equal; divmod.
Qed.
(** On dates whose fields fit their columns, the ISO texts compare
    byte-wise as the dates do. *)
Lemma date_isoformat_compare a b :
  (Z.of_nat (year a) <= 9999)%Z → month a < 100 → day a < 100 →
  (Z.of_nat (year b) <= 9999)%Z → month b < 100 → day b < 100 →
  String.compare (date_isoformat a) (date_isoformat b) = date_compare a b.
Proof.
  intros. unfold date_isoformat, date_compare.
  rewrite pad4_compare, compare_cons, pad2_compare, compare_cons, pad2_compare by done.
  simpl. by destruct (day a ?= day b).
Qed.
Lemma digit_val_digit x : x < 10 → digit_val (digit x) = Some x.
Proof.
  intros Hx. unfold digit_val, digit. rewrite nat_ascii_embedding by lia.
  replace (48 <=? 48 + x) with true by (symmetry; apply Nat.leb_le; lia).
  replace (48 + x <=? 57) with true by (symmetry; apply Nat.leb_le; lia).
  simpl. f_equal. lia.
Qed.
Lemma num2_pad n : n < 100 → num2 (digit (n / 10 mod 10)) (digit (n mod 10)) = Some n.
Proof.
  intros Hn. unfold num2.
  rewrite !digit_val_digit by (apply Nat.mod_upper_bound; lia). simpl.
  f_equal. symmetry. by apply digits2.
Qed.
Lemma num4_pad n : (Z.of_nat n <= 9999)%Z →
  num4 (digit (n / 1000 mod 10)) (digit (n / 100 mod 10))
       (digit (n / 10 mod 10)) (digit (n mod 10)) = Some n.
Proof.
  intros Hn. unfold num4, num2.
  rewrite !digit_val_digit by (apply Nat.mod_upper_bound; lia).
  cbv [mbind option_bind]. f_equal. divmod.
Qed.
Lemma days_in_month_le y m : days_in_month y m ≤ 31.
Proof.
  unfold days_in_month.
  do 12 (destruct m as [|m]; [destruct (is_leap y); lia|]). lia.
Qed.
Lemma valid_date_bounds d : valid_date d = true →
  (Z.of_nat (year d) <= 9999)%Z ∧ month d < 100 ∧ day d < 100.
Proof.
  unfold valid_date. rewrite !andb_true_iff, !Nat.leb_le, Z.leb_le.
  intros (((((_ & Hy) & _) & Hm) & _) & Hd). split; [done|]. split; [lia|].
  pose proof (days_in_month_le (year d) (month d)). lia.
Qed.
(** Reading back the text of a date gives the date. *)
Lemma parse_iso_date_isoformat d :
  valid_date d = true → parse_iso_date (date_isoformat d) = Some d.
Proof.
  intros Hd. destruct (valid_date_bounds d Hd) as (Hy & Hm & Hday).
  unfold date_isoformat, pad4, pad2, parse_iso_date.
  rewrite num4_pad, !num2_pad by done. simpl.
  destruct d as [y m dd]. simpl in *. by rewrite Hd.
Qed.

(** ** Writing to the document store *)

Lemma to_dict_transaction_id t :
  MongoDBStorage.to_dict t !! "transaction_id" = Some (VStr (Transaction.transaction_id t)).
Proof. destruct t as [? ? ? ? ? ? ? ? ? ? ? ? ? ? [m|]]; reflexivity. Qed.

Lemma to_dict_date t :
  MongoDBStorage.to_dict t !! "date" = Some (VDate (Transaction.date t)).
Proof. destruct t as [? ? ? ? ? ? ? ? ? ? ? ? ? ? [m|]]; reflexivity. Qed.

Lemma to_dict_pending t :
  MongoDBStorage.to_dict t !! "pending" = Some (VBool (Transaction.pending t)).
Proof. destruct t as [? ? ? ? ? ? ? ? ? ? ? ? ? ? [m|]]; reflexivity. Qed.

Lemma to_dict_amount t :
  MongoDBStorage.to_dict t !! "amount" = Some (VNum (Transaction.amount t)).
Proof. destruct t as [? ? ? ? ? ? ? ? ? ? ? ? ? ? [m|]]; reflexivity. Qed.

Lemma to_dict_plaid2text t :
  MongoDBStorage.to_dict t !! "plaid2text" = Transaction.plaid2text t.
Proof. destruct t as [? ? ? ? ? ? ? ? ? ? ? ? ? ? [m|]]; reflexivity. Qed.

Lemma text_doc_conflict today (set_ : pydict) :
  bool_decide (map_Forall (λ path _, set_ !! path = None) (TEXT_DOC today)) = true ↔
  set_ !! "plaid2text" = None.
Proof.
  rewrite bool_decide_eq_true. unfold TEXT_DOC. rewrite map_Forall_singleton. done.
Qed.

Lemma lift_bind {S A B} (x : A) (f : A → M S B) (s : S) :
  (lift (inr x) ≫= f) s = f x s.
Proof. reflexivity. Qed.

Lemma mongo_save_transaction_step today t (c : MongoDBStorage.collection) :
  MongoDBStorage.save_transaction today t c = (c, inr tt) ∧ Transaction.pending t = true ∨
  (∃ e, MongoDBStorage.save_transaction today t c = (c, inl e) ∧
        is_Some (Transaction.plaid2text t)) ∨
  ∃ set_,
    Transaction.pending t = false ∧ Transaction.plaid2text t = None ∧
    set_ !! "plaid2text" = None ∧
    set_ !! "pending" = Some (VBool false) ∧
    set_ !! "amount" = Some (VNum (Transaction.amount t)) ∧
    MongoDBStorage.save_transaction today t c =
    (match c !! Transaction.transaction_id t with
     | Some doc => <[Transaction.transaction_id t := set_ ∪ doc]> c
     | None => <[Transaction.transaction_id t := set_ ∪ TEXT_DOC today]> c
     end, inr tt).
Proof.
  unfold MongoDBStorage.save_transaction.
  destruct (Transaction.pending t) eqn:Hpending; [by left|]. right.
  cbn [negb].
  set (D := MongoDBStorage.to_dict t).
  assert (HD1 : getitem D "transaction_id" = inr (VStr (Transaction.transaction_id t))).
  { unfold getitem, D. by rewrite to_dict_transaction_id. }
  assert (HD2 : getitem D "date" ≫= MongoDBStorage.combine
                = inr (VDateTime (combine_midnight (Transaction.date t)))).
  { unfold getitem, D. by rewrite to_dict_date. }
  rewrite HD1, HD2, !lift_bind.
  set (d := VDateTime (combine_midnight (Transaction.date t))).
  set (set_ := match getitem (<["date":=d]> D) "authorized_date"
                       ≫= MongoDBStorage.combine with
               | inl _ => <["date":=d]> D
               | inr a => <["authorized_date":=a]> (<["date":=d]> D)
               end).
  assert (Hother : ∀ k, k ≠ "date" → k ≠ "authorized_date" → set_ !! k = D !! k).
  { intros k ? ?. unfold set_.
    destruct (getitem (<["date":=d]> D) "authorized_date" ≫= MongoDBStorage.combine);
      by rewrite ?(lookup_insert_ne _ "authorized_date"), lookup_insert_ne. }
  unfold MongoDBStorage.update_many_upsert.
  destruct (bool_decide _) eqn:Hconflict.
  - right. exists set_. apply text_doc_conflict in Hconflict.
    split_and!; try done.
    + by rewrite <-to_dict_plaid2text, <-Hconflict, Hother.
    + rewrite Hother by done. unfold D. by rewrite to_dict_pending, Hpending.
    + rewrite Hother by done. unfold D. by rewrite to_dict_amount.
  - left. eexists. split; [reflexivity|].
    apply not_eq_None_Some. intros Hnone.
    rewrite <-(to_dict_plaid2text t) in Hnone. fold D in Hnone.
    rewrite <-Hother in Hnone by done.
    apply (text_doc_conflict today) in Hnone. congruence.
Qed.


(** What one [save_transaction] does to the document under [id]: a stored
    document keeps its metadata; a new one gets that of [TEXT_DOC]; none
    is written with [pending] true. *)
Lemma mongo_save_transaction_lookup today t (c : MongoDBStorage.collection) id :
  let c' := (MongoDBStorage.save_transaction today t c).1 in
  match c !! id with
  | Some doc =>
      ∃ doc', c' !! id = Some doc' ∧ metadata_of doc' = metadata_of doc ∧
              (doc' !! "pending" = doc !! "pending" ∨
               doc' !! "pending" = Some (VBool false))
  | None =>
      c' !! id = None ∨
      ∃ doc', c' !! id = Some doc' ∧
              metadata_of doc' = TEXT_DOC today !! "plaid2text" ∧
              doc' !! "pending" = Some (VBool false)
  end.
Proof.
  intros c'. subst c'.
  destruct (mongo_save_transaction_step today t c)
    as [[-> _]|[(e & -> & _)|(set_ & _ & _ & Hmeta & Hpend & _ & ->)]]; simpl.
  1,2: destruct (c !! id); eauto.
  unfold metadata_of.
  destruct (decide (id = Transaction.transaction_id t)) as [->|Hne].
  - destruct (c !! Transaction.transaction_id t) as [doc|] eqn:Hc.
    + rewrite lookup_insert_eq. eexists. split; [done|].
      rewrite lookup_union_r by done. split; [done|]. right.
      by rewrite (lookup_union_Some_l _ _ _ _ Hpend).
    + right. rewrite lookup_insert_eq. eexists. split; [done|].
      rewrite lookup_union_r by done. split; [done|].
      by rewrite (lookup_union_Some_l _ _ _ _ Hpend).
  - destruct (c !! Transaction.transaction_id t);
      rewrite lookup_insert_ne by done; destruct (c !! id); eauto.
Qed.

(** A batch returns when none of its transactions carries a [plaid2text]
    of its own. *)
Lemma mongo_save_transactions_returns today transactions
    (c : MongoDBStorage.collection) :
  Forall (λ t, Transaction.plaid2text t = None) transactions →
  ∃ c', MongoDBStorage.save_transactions today transactions c = (c', inr tt).
Proof.
  intros Hall. revert c.
  apply (for_each_returns (λ t, Transaction.plaid2text t = None)); [|done].
  intros t s Ht.
  destruct (mongo_save_transaction_step today t s)
    as [[-> _]|[(e & _ & Hsome)|(set_ & _ & _ & _ & _ & _ & ->)]]; eauto.
  rewrite Ht in Hsome. by destruct Hsome.
Qed.

(** What one entry of an update does: the whole metadata sub-document of
    the transaction it names is replaced by the stamped patch; nothing
    else is touched and no document is created. *)
Lemma mongo_update_entry_lookup now mark txn (c : MongoDBStorage.collection) :
  is_Some (txn !! "transaction_id") →
  ∃ c', MongoDBStorage.update_entry now mark txn c = (c', inr tt) ∧
    ∀ id, match c !! id with
          | Some doc =>
              ∃ doc', c' !! id = Some doc' ∧
                (∀ k, k ≠ "plaid2text" → doc' !! k = doc !! k) ∧
                metadata_of doc' =
                  if targets id txn then Some (VDict (stamp now mark txn))
                  else metadata_of doc
          | None => c' !! id = None
          end.
Proof.
  intros [v Hv]. unfold MongoDBStorage.update_entry, pop. rewrite Hv, lift_bind.
  unfold MongoDBStorage.update_one, modify. eexists. split; [reflexivity|].
  intros id. unfold targets, metadata_of. rewrite Hv.
  assert (Hstamp :
    (if truthy mark
     then <["date_last_pulled":=VDateTime now]>
            (<["pulled_to_file":=opt_bool mark]> (delete "transaction_id" txn))
     else <["pulled_to_file":=opt_bool mark]> (delete "transaction_id" txn))
    = stamp now mark txn) by done.
  rewrite Hstamp.
  destruct v as [| | |s| | | |]; try (destruct (c !! id); by eauto).
  destruct (String.eqb_spec s id) as [->|Hne].
  - rewrite lookup_alter_eq. destruct (c !! id) as [doc|]; [|done].
    eexists. split; [done|]. split.
    + intros k Hk. rewrite lookup_union_r; [done|]. by rewrite lookup_singleton_ne.
    + by rewrite (lookup_union_Some_l _ _ _ _ (lookup_singleton_eq _ _)).
  - rewrite lookup_alter_ne by done. destruct (c !! id); eauto.
Qed.

(** Saving never changes the metadata of a document that is already
    stored, whatever the batch and however it ends. *)
Lemma mongo_save_keeps_metadata today transactions
    (c : MongoDBStorage.collection) id doc :
  c !! id = Some doc →
  ∃ doc', (MongoDBStorage.save_transactions today transactions c).1 !! id = Some doc' ∧
          metadata_of doc' = metadata_of doc.
Proof.
  intros Hc.
  apply (for_each_invariant
           (λ s : MongoDBStorage.collection,
              ∃ doc', s !! id = Some doc' ∧ metadata_of doc' = metadata_of doc));
    [|by eauto].
  intros t s (doc1 & Hs & Hmeta).
  pose proof (mongo_save_transaction_lookup today t s id) as Hstep.
  simpl in Hstep. rewrite Hs in Hstep.
  destruct Hstep as (doc2 & ? & ? & _). exists doc2. split; congruence.
Qed.

(** On the document store, saving a transaction a second time leaves the
    metadata the first save left. *)
Lemma mongo_resave_same_metadata today today' t (c : MongoDBStorage.collection) id :
  let c1 := (MongoDBStorage.save_transactions today [t] c).1 in
  let c2 := (MongoDBStorage.save_transactions today' [t] c1).1 in
  is_Some (c1 !! id) →
  metadata_of <$> c2 !! id = metadata_of <$> c1 !! id.
Proof.
  intros c1 c2 [doc Hdoc].
  destruct (mongo_save_keeps_metadata today' [t] c1 id doc Hdoc) as (doc' & H2 & Hm).
  fold c2 in H2. rewrite H2, Hdoc. simpl. by rewrite Hm.
Qed.

(** A settled transaction without metadata of its own is stored by the
    save. *)
Lemma mongo_save_stores today t (c : MongoDBStorage.collection) :
  Transaction.pending t = false → Transaction.plaid2text t = None →
  is_Some ((MongoDBStorage.save_transactions today [t] c).1
             !! Transaction.transaction_id t).
Proof.
  intros Hpending Hmeta. unfold MongoDBStorage.save_transactions.
  rewrite for_each_cons.
  destruct (mongo_save_transaction_step today t c)
    as [[_ ?]|[(e & _ & Hsome)|(set_ & _ & _ & _ & _ & _ & ->)]].
  - congruence.
  - rewrite Hmeta in Hsome. by destruct Hsome.
  - simpl. destruct (c !! Transaction.transaction_id t);
      rewrite lookup_insert_eq; eauto.
Qed.

(** The metadata [TEXT_DOC] carries. *)
Lemma text_doc_plaid2text today :
  TEXT_DOC today !! "plaid2text" =
  Some (VDict (<["date_last_pulled" := VStr ""]> (Spec.default_metadata today))).
Proof. reflexivity. Qed.

(** Every settled transaction of a batch is stored by the save, when no
    transaction of the batch carries a [plaid2text] of its own. *)
Lemma mongo_save_transactions_stores today transactions t
    (c : MongoDBStorage.collection) :
  Forall (λ t, Transaction.plaid2text t = None) transactions →
  t ∈ transactions → Transaction.pending t = false →
  is_Some ((MongoDBStorage.save_transactions today transactions c).1
             !! Transaction.transaction_id t).
Proof.
  intros Hall Hin Hpending. revert c.
  induction Hall as [|t0 l Ht0 Hall IH]; intros c; [by apply elem_of_nil in Hin|].
  unfold MongoDBStorage.save_transactions. rewrite for_each_cons.
  pose proof (mongo_save_stores today t0 c) as Hhead.
  unfold MongoDBStorage.save_transactions in Hhead.
  rewrite for_each_cons in Hhead.
  destruct (mongo_save_transaction_step today t0 c)
    as [[Hrun Hp]|[(e & _ & Hsome)|(set_ & Hp & _ & _ & _ & _ & Hrun)]].
  - rewrite Hrun. apply elem_of_cons in Hin as [->|Hin]; [congruence|by apply IH].
  - rewrite Ht0 in Hsome. by destruct Hsome.
  - rewrite Hrun in *. apply elem_of_cons in Hin as [->|Hin]; [|by apply IH].
    destruct (Hhead Hp Ht0) as [doc Hdoc].
    destruct (mongo_save_keeps_metadata today l _ _ _ Hdoc) as (doc' & Hdoc' & _).
    by exists doc'.
Qed.

(** ** The default metadata *)

(** C9, as stated, fails: the document inserted for a first download has
    [date_last_pulled] set to the empty text, where the specification's
    default has null. *)
Lemma default_date_last_pulled_is_text :
  let c := (MongoDBStorage.save_transactions Sample.today [Sample.t1] ∅).1 in
  metadata_field "date_last_pulled" <$> c !! "T1" = Some (Some (VStr "")) ∧
  Spec.default_metadata Sample.today !! "date_last_pulled" = Some VNone.
Proof. vm_compute. done. Qed.

(** C9 (amended): the metadata of a document that a save inserts is the
    one [TEXT_DOC] holds: tags [[]], payee, posting_account and
    associated_account empty, pulled_to_file false, [date_last_pulled]
    the empty text, and [date_downloaded] the timestamp [TEXT_DOC] was
    built with when the module was loaded. *)
Theorem mongo_first_insert_metadata today transactions
    (c : MongoDBStorage.collection) id doc :
  c !! id = None →
  (MongoDBStorage.save_transactions today transactions c).1 !! id = Some doc →
  metadata_of doc =
  Some (VDict (<["date_last_pulled" := VStr ""]> (Spec.default_metadata today))).
Proof.
  intros Hfresh. rewrite <-text_doc_plaid2text. revert doc.
  apply (for_each_invariant
           (λ s : MongoDBStorage.collection,
              ∀ doc, s !! id = Some doc →
                     metadata_of doc = TEXT_DOC today !! "plaid2text")).
  - intros t s Hs doc.
    pose proof (mongo_save_transaction_lookup today t s id) as Hstep.
    simpl in Hstep. destruct (s !! id) as [doc0|].
    + destruct Hstep as (doc' & -> & Hmeta & _). intros [= <-].
      rewrite Hmeta. by apply Hs.
    + destruct Hstep as [->|(doc' & -> & Hmeta & _)]; [done|]. by intros [= <-].
  - intros doc. by rewrite Hfresh.
Qed.

Lemma mongo_first_insert_metadata_witness :
  ∃ doc, Sample.stored !! "T1" = Some doc ∧
         metadata_of doc =
         Some (VDict (<["date_last_pulled" := VStr ""]>
                        (Spec.default_metadata Sample.today))).
Proof.
  destruct (mongo_save_transactions_stores Sample.today [Sample.t1; Sample.t2]
              Sample.t1 ∅) as [doc Hdoc].
  - repeat constructor.
  - left.
  - reflexivity.
  - exists doc. split; [done|].
    exact (mongo_first_insert_metadata Sample.today [Sample.t1; Sample.t2] ∅ "T1" doc
             eq_refl Hdoc).
Defined.

(** ** What every reachable collection satisfies *)

(** A stamped patch is never the empty mapping: it holds the pulled mark. *)
Lemma stamp_not_empty now mark txn : stamp now mark txn ≠ ∅.
Proof.
  unfold stamp. intros Hempty.
  assert (Hkey : is_Some ((∅ : pydict) !! "pulled_to_file")).
  { rewrite <-Hempty. destruct (truthy mark);
      rewrite ?(lookup_insert_ne _ "date_last_pulled") by done;
      rewrite lookup_insert_eq; eauto. }
  rewrite lookup_empty in Hkey. by destruct Hkey.
Qed.

(** Every document of a reachable collection is settled and has
    metadata that is a non-empty mapping. *)
Lemma reachable_stored (c : MongoDBStorage.collection) :
  reachable c →
  ∀ id doc, c !! id = Some doc →
    doc !! "pending" = Some (VBool false) ∧
    ∃ m, metadata_of doc = Some (VDict m) ∧ m ≠ ∅.
Proof.
  set (P := λ s : MongoDBStorage.collection,
    ∀ id doc, s !! id = Some doc →
      doc !! "pending" = Some (VBool false) ∧
      ∃ m, metadata_of doc = Some (VDict m) ∧ m ≠ ∅).
  intros Hreach. change (P c).
  induction Hreach as [|today transactions c _ IH|now update mark c _ IH].
  - intros id doc. by rewrite lookup_empty.
  - apply (for_each_invariant P); [|done]. intros t s Hs id doc.
    pose proof (mongo_save_transaction_lookup today t s id) as Hstep.
    simpl in Hstep. destruct (s !! id) as [doc0|] eqn:Hdoc0.
    + destruct Hstep as (doc' & -> & Hmeta & Hpend). intros [= <-].
      destruct (Hs id doc0 Hdoc0) as [Hp Hm]. rewrite Hmeta. split; [|done].
      destruct Hpend; congruence.
    + destruct Hstep as [->|(doc' & -> & Hmeta & Hpend)]; [done|]. intros [= <-].
      split; [done|]. rewrite Hmeta, text_doc_plaid2text. eexists. split; [done|].
      intros Hempty.
      assert (Hkey : is_Some ((∅ : pydict) !! "date_last_pulled")).
      { rewrite <-Hempty, lookup_insert_eq. eauto. }
      rewrite lookup_empty in Hkey. by destruct Hkey.
  - apply (for_each_invariant P); [|done]. intros txn s Hs id doc.
    destruct (txn !! "transaction_id") as [v|] eqn:Hv.
    + destruct (mongo_update_entry_lookup now mark txn s) as (s' & -> & Hlook); [eauto|].
      simpl. specialize (Hlook id). destruct (s !! id) as [doc0|] eqn:Hdoc0.
      * destruct Hlook as (doc' & -> & Hframe & Hmeta). intros [= <-].
        destruct (Hs id doc0 Hdoc0) as [Hp Hm]. split; [by rewrite Hframe|].
        rewrite Hmeta. destruct (targets id txn); [|done].
        eexists. split; [done|]. apply stamp_not_empty.
      * by rewrite Hlook.
    + unfold MongoDBStorage.update_entry, pop. rewrite Hv. apply Hs.
Qed.

(** ** Updating the document store *)

Lemma last_patch_cons id txn update :
  last_patch id (txn :: update) =
  match last_patch id update with
  | Some later => Some later
  | None => if targets id txn then Some txn else None
  end.
Proof.
  unfold last_patch. simpl. destruct (targets id txn); [|by destruct (last _)].
  by rewrite last_cons.
Qed.


(** What an update does to every stored document, patch after patch. *)
Lemma mongo_update_transaction_lookup now mark update
    (c : MongoDBStorage.collection) :
  Forall (λ txn : pydict, is_Some (txn !! "transaction_id")) update →
  ∃ c', MongoDBStorage.update_transaction now update mark c = (c', inr tt) ∧
    ∀ id, match c !! id with
          | Some doc =>
              ∃ doc', c' !! id = Some doc' ∧
                (∀ k, k ≠ "plaid2text" → doc' !! k = doc !! k) ∧
                metadata_of doc' =
                  match last_patch id update with
                  | Some txn => Some (VDict (stamp now mark txn))
                  | None => metadata_of doc
                  end
          | None => c' !! id = None
          end.
Proof.
  intros Hall. revert c. unfold MongoDBStorage.update_transaction.
  induction Hall as [|txn update Htxn _ IH]; intros c.
  - exists c. split; [done|]. intros id. destruct (c !! id); eauto.
  - rewrite for_each_cons.
    destruct (mongo_update_entry_lookup now mark txn c Htxn) as (c1 & -> & H1).
    destruct (IH c1) as (c2 & -> & H2). exists c2. split; [done|].
    intros id. specialize (H1 id). specialize (H2 id). rewrite last_patch_cons.
    destruct (c !! id) as [doc|].
    + destruct H1 as (doc1 & Hc1 & Hframe1 & Hmeta1). rewrite Hc1 in H2.
      destruct H2 as (doc2 & Hc2 & Hframe2 & Hmeta2). exists doc2.
      split; [done|]. split.
      * intros k Hk. by rewrite Hframe2, Hframe1.
      * rewrite Hmeta2. destruct (last_patch id update); [done|].
        rewrite Hmeta1. by destruct (targets id txn).
    + by rewrite H1 in H2.
Qed.




Lemma last_patch_is_Some id update :
  Exists (λ txn, targets id txn = true) update → is_Some (last_patch id update).
Proof.
  intros (txn & Hin & Htarget)%Exists_exists. apply last_is_Some.
  intros Hnil. assert (Hfilter : In txn (List.filter (targets id) update)).
  { apply filter_In. split; [by apply list_elem_of_In|done]. }
  by rewrite Hnil in Hfilter.
Qed.

Lemma stamp_pulled now txn :
  stamp now (Some true) txn !! "pulled_to_file" = Some (VBool true).
Proof. unfold stamp. simpl. by rewrite lookup_insert_ne, lookup_insert_eq. Qed.

(** The [_id] put back on a document does not touch its metadata. *)
Lemma metadata_field_with_id key id (doc : pydict) :
  metadata_field key (<["_id" := VStr id]> doc) = metadata_field key doc.
Proof. unfold metadata_field. simpl. by rewrite lookup_insert_ne. Qed.


(** X5: the document store never hands out a pending transaction.  A
    collection built by the store itself holds none, so no
    [get_transactions] on it returns one. *)
Lemma mongo_returns_no_pending (c : MongoDBStorage.collection)
    from_date to_date only_new ret :
  reachable c →
  MongoDBStorage.get_transactions from_date to_date only_new c = (c, inr ret) →
  ∀ doc, doc ∈ ret → doc !! "pending" = Some (VBool false).
Proof.
  intros Hreach Hget doc Hin.
  destruct (mongo_get_transactions_spec from_date to_date only_new c)
    as (ret' & Hget' & _ & Hret).
  rewrite Hget in Hget'. injection Hget' as <-.
  apply Hret in Hin as (Hstored & _).
  apply elem_of_documents in Hstored as (id & fields & Hfields & ->).
  rewrite lookup_insert_ne by done.
  by destruct (reachable_stored c Hreach id fields Hfields).
Qed.

(** ** Reading from the relational store *)

Lemma result_bind_inr {A B} (x : A) (f : A → result B) : (inr x ≫= f) = f x.
Proof. reflexivity. Qed.

Lemma result_bind_inv {A B} (r : result A) (f : A → result B) y :
  r ≫= f = inr y → ∃ x, r = inr x ∧ f x = inr y.
Proof. destruct r as [e|x]; [done|]. eauto. Qed.

(** The record made from a row: its metadata is the decoded column, or
    [None] when the column is [NULL] or decodes to something empty. *)
Lemma decode_plaid2text r t :
  SQLiteStorage.decode r = inr t →
  t !! "plaid2text" ≠ Some (VDict ∅) ∧
  ((SQLiteStorage.metadata r = None ∨ SQLiteStorage.metadata r = Some (VDict ∅)) →
   t !! "plaid2text" = Some VNone).
Proof.
  unfold SQLiteStorage.decode.
  set (p := default (VDict ∅) (SQLiteStorage.metadata r)).
  set (t0 := match SQLiteStorage.metadata r with
             | Some m => <["plaid2text":=m]> (SQLiteStorage.plaid_json r)
             | None => <["plaid2text":=VDict ∅]> (SQLiteStorage.plaid_json r)
             end).
  assert (Hp : getitem t0 "plaid2text" = inr p).
  { unfold getitem, t0, p. destruct (SQLiteStorage.metadata r);
      by rewrite lookup_insert_eq. }
  assert (Ht0 : t0 !! "plaid2text" = Some p).
  { unfold t0, p. destruct (SQLiteStorage.metadata r); by rewrite lookup_insert_eq. }
  rewrite Hp, result_bind_inr.
  intros (n & Hlen & Hrest)%result_bind_inv.
  apply result_bind_inv in Hrest as (d & _ & Hrest).
  apply result_bind_inv in Hrest as (d' & _ & [= <-]).
  rewrite lookup_insert_ne by done.
  destruct (Nat.eqb_spec n 0) as [->|Hn].
  - rewrite lookup_insert_eq. split; [done|]. done.
  - rewrite Ht0. split.
    + intros [= Hempty]. rewrite Hempty in Hlen. simpl in Hlen.
      rewrite map_size_empty in Hlen. by injection Hlen as <-.
    + intros Hmeta. exfalso. apply Hn. unfold p in Hlen.
      destruct Hmeta as [Hmeta|Hmeta]; rewrite Hmeta in Hlen; simpl in Hlen;
        rewrite map_size_empty in Hlen; by injection Hlen as <-.
Qed.

(** The record made from a row is the record of that row. *)
Lemma decode_record r t :
  SQLiteStorage.decode r = inr t → record_of r t.
Proof.
  unfold SQLiteStorage.decode.
  set (p := default (VDict ∅) (SQLiteStorage.metadata r)).
  set (t0 := match SQLiteStorage.metadata r with
             | Some m => <["plaid2text":=m]> (SQLiteStorage.plaid_json r)
             | None => <["plaid2text":=VDict ∅]> (SQLiteStorage.plaid_json r)
             end).
  assert (Ht0 : t0 !! "plaid2text" = Some p).
  { unfold t0, p. destruct (SQLiteStorage.metadata r); by rewrite lookup_insert_eq. }
  assert (Hp : getitem t0 "plaid2text" = inr p).
  { unfold getitem. by rewrite Ht0. }
  assert (Hother0 : ∀ k, k ≠ "plaid2text" →
            t0 !! k = SQLiteStorage.plaid_json r !! k).
  { intros k Hk. unfold t0. destruct (SQLiteStorage.metadata r);
      by rewrite lookup_insert_ne. }
  rewrite Hp, result_bind_inr.
  intros (n & Hlen & Hrest)%result_bind_inv.
  set (t1 := if n =? 0 then <["plaid2text":=VNone]> t0 else t0) in Hrest.
  assert (Hother1 : ∀ k, k ≠ "plaid2text" →
            t1 !! k = SQLiteStorage.plaid_json r !! k).
  { intros k Hk. unfold t1. destruct (n =? 0);
      rewrite ?lookup_insert_ne by done; by apply Hother0. }
  apply result_bind_inv in Hrest as (dv & Hdv & Hrest).
  apply result_bind_inv in Hrest as (d' & Hparse & [= <-]).
  split; [|split].
  - intros k Hk1 Hk2. rewrite lookup_insert_ne by done. by apply Hother1.
  - unfold SQLiteStorage.parse in Hparse.
    destruct dv as [| | |text| | | |]; try done.
    destruct (parse_iso_date text) as [d|] eqn:Hd; [|done].
    injection Hparse as <-. exists text, d. split; [|split; [done|]].
    + unfold getitem in Hdv. rewrite Hother1 in Hdv by done.
      destruct (SQLiteStorage.plaid_json r !! "date"); congruence.
    + by rewrite lookup_insert_eq.
  - unfold metadata_of. rewrite lookup_insert_ne by done.
    unfold t1, shown_metadata, is_empty, p in *.
    destruct (SQLiteStorage.metadata r) as [m|]; simpl in Hlen.
    + rewrite Hlen. destruct n as [|n]; simpl; [by rewrite lookup_insert_eq|done].
    + rewrite map_size_empty in Hlen. injection Hlen as <-. simpl.
      by rewrite lookup_insert_eq.
Qed.

Lemma decoded_records rows ret :
  SQLiteStorage.decode_all rows = inr ret → Forall2 record_of rows ret.
Proof.
  revert ret. induction rows as [|r rows IH]; intros ret; simpl.
  - by intros [= <-].
  - intros (t & Ht & Hrest)%result_bind_inv.
    apply result_bind_inv in Hrest as (ret' & Hret' & [= <-]).
    constructor; [by apply decode_record|]. by apply IH.
Qed.

(** A call that returns hands back the records of the selected rows, row
    by row. *)
Lemma sqlite_get_transactions_records from_date to_date only_new
    (s s' : SQLiteStorage.db) ret :
  SQLiteStorage.get_transactions from_date to_date only_new s = (s', inr ret) →
  Forall2 record_of
    (SQLiteStorage.select (SQLiteStorage.conditions_of from_date to_date only_new)
       (SQLiteStorage.transactions s)) ret.
Proof.
  rewrite sqlite_get_transactions_run.
  destruct (SQLiteStorage.select _ _) as [|first rest]; [done|].
  intros [= _ Hret]. by apply decoded_records.
Qed.

(** What the metadata of the record of a row is, case by case. *)
Lemma record_of_metadata r t :
  record_of r t →
  metadata_of t ≠ Some (VDict ∅) ∧
  ((SQLiteStorage.metadata r = None ∨ SQLiteStorage.metadata r = Some (VDict ∅)) →
   metadata_of t = Some VNone) ∧
  (∀ m, SQLiteStorage.metadata r = Some (VDict m) → m ≠ ∅ →
        metadata_of t = Some (VDict m)).
Proof.
  intros (_ & _ & ->). unfold shown_metadata, is_empty. split; [|split].
  - destruct (SQLiteStorage.metadata r) as [m|]; [|done].
    destruct (len m) as [e|[|n]] eqn:Hlen; try done.
    all: intros [= ->]; simpl in Hlen; rewrite map_size_empty in Hlen; done.
  - intros [->| ->]; [done|]. simpl. by rewrite map_size_empty.
  - intros m -> Hm. simpl. destruct (size m) eqn:Hsize; [|done].
    by apply map_size_empty_iff in Hsize.
Qed.

Lemma decode_all_Forall2 rows ret :
  SQLiteStorage.decode_all rows = inr ret →
  Forall2 (λ r t, SQLiteStorage.decode r = inr t) rows ret.
Proof.
  revert ret. induction rows as [|r rows IH]; intros ret; simpl.
  - by intros [= <-].
  - intros (t & Ht & Hrest)%result_bind_inv.
    apply result_bind_inv in Hrest as (ret' & Hret' & [= <-]).
    constructor; [done|]. by apply IH.
Qed.

(** A call that returns hands back the decoded selection, row by row. *)
Lemma sqlite_get_transactions_decoded from_date to_date only_new
    (s s' : SQLiteStorage.db) ret :
  SQLiteStorage.get_transactions from_date to_date only_new s = (s', inr ret) →
  Forall2 (λ r t, SQLiteStorage.decode r = inr t)
    (SQLiteStorage.select (SQLiteStorage.conditions_of from_date to_date only_new)
       (SQLiteStorage.transactions s)) ret.
Proof.
  rewrite sqlite_get_transactions_run.
  destruct (SQLiteStorage.select _ _) as [|first rest]; [done|].
  intros [= _ Hret]. by apply decode_all_Forall2.
Qed.

(** ** The date filter *)

Lemma iso_leb a b :
  valid_date a = true → valid_date b = true →
  String.leb (date_isoformat a) (date_isoformat b) = date_leb a b.
Proof.
  intros (? & ? & ?)%valid_date_bounds (? & ? & ?)%valid_date_bounds.
  unfold String.leb, date_leb. rewrite date_isoformat_compare by done.
  by destruct (date_compare a b).
Qed.

(** On a stored timestamp at midnight the filter of the document store
    is the filter on dates. *)
Lemma date_filter_midnight from_date to_date (doc : pydict) d :
  MongoDBStorage.date_key doc = Some (combine_midnight d) →
  date_filter from_date to_date doc = bounds_filter from_date to_date d.
Proof.
  intros Hkey. unfold date_filter, bounds_filter, date_within, Spec.date_bound.
  rewrite Hkey. destruct from_date as [f|], to_date as [t|]; simpl;
    rewrite ?combine_midnight_leb, ?andb_true_r; done.
Qed.

(** With a year of four digits [strftime] writes what [isoformat]
    writes. *)
Lemma strftime_ymd_isoformat d :
  1000 ≤ year d → strftime_ymd d = date_isoformat d.
Proof.
  intros Hyear. unfold strftime_ymd, year_text, date_isoformat.
  destruct (Nat.ltb_spec (year d) 10); [lia|].
  destruct (Nat.ltb_spec (year d) 100); [lia|].
  destruct (Nat.ltb_spec (year d) 1000); [lia|]. done.
Qed.

(** The WHERE clause of the relational [get_transactions] on a row dated
    [d]. *)
Lemma sqlite_conditions_hold from_date to_date only_new r d :
  valid_bound from_date → valid_bound to_date →
  four_digit_range from_date to_date → stored_on d r →
  forallb (SQLiteStorage.holds r)
    (SQLiteStorage.conditions_of from_date to_date only_new) =
  (if only_new then core_not_pulled r else true) && bounds_filter from_date to_date d.
Proof.
  intros Hf Ht Hyears [Hd Hdate].
  assert (Hextract : json_extract (SQLiteStorage.plaid_json r) "date"
                     = SqlText (date_isoformat d)).
  { unfold json_extract. by rewrite Hdate. }
  assert (Hbetween : ∀ f t, valid_date f = true → valid_date t = true →
    SQLiteStorage.holds r
      (SQLiteStorage.DateBetween (date_isoformat f) (date_isoformat t))
    = date_leb f d && date_leb d t).
  { intros f t ? ?. unfold SQLiteStorage.holds. rewrite Hextract.
    unfold sql_le. by rewrite !iso_leb. }
  assert (Hge : ∀ f, valid_date f = true →
    SQLiteStorage.holds r (SQLiteStorage.DateGe (date_isoformat f)) = date_leb f d).
  { intros f ?. unfold SQLiteStorage.holds. rewrite Hextract.
    unfold sql_le. by rewrite iso_leb. }
  assert (Hle : ∀ t, valid_date t = true →
    SQLiteStorage.holds r (SQLiteStorage.DateLe (date_isoformat t)) = date_leb d t).
  { intros t ?. unfold SQLiteStorage.holds. rewrite Hextract.
    unfold sql_le. by rewrite iso_leb. }
  assert (Hnew : SQLiteStorage.holds r SQLiteStorage.NotPulled = core_not_pulled r)
    by done.
  unfold SQLiteStorage.conditions_of, bounds_filter, Spec.date_bound, valid_bound,
    four_digit_range in *.
  destruct only_new, from_date as [f|], to_date as [t|];
    try rewrite !strftime_ymd_isoformat by apply Hyears;
    try destruct (date_leb f t);
    cbn [app forallb];
    rewrite ?Hnew, ?Hbetween, ?Hge, ?Hle, ?andb_true_r by done; done.
Qed.

(** Below the year 1000 the text [strftime] binds is shorter than the
    stored text: for the bounds 1 January 999 to 31 December 2024 the
    query selects nothing, though the stored date lies between them. *)
Lemma sqlite_range_before_year_1000 :
  let from_date := Some (mk_date 999 1 1) in
  let to_date := Some (mk_date 2024 12 31) in
  valid_date (mk_date 999 1 1) = true ∧
  strftime_ymd (mk_date 999 1 1) = "999-01-01" ∧
  bounds_filter from_date to_date (mk_date 2024 1 5) = true ∧
  core_field "date" Sample.stored_db = [Some (VStr "2024-01-05")] ∧
  SQLiteStorage.select (SQLiteStorage.conditions_of from_date to_date false)
    (SQLiteStorage.transactions Sample.stored_db) = [].
Proof. vm_compute. done. Qed.

(** C4, as stated, fails: with [from_date] after [to_date] both back ends
    drop the date filter, and return a transaction of 5 January for the
    bounds 4 January to 1 January, which the inclusive range of the
    specification excludes. *)
Lemma get_transactions_bounds_out_of_order :
  let from_date := Some (mk_date 2024 1 4) in
  let to_date := Some (mk_date 2024 1 1) in
  field "date" (MongoDBStorage.get_transactions from_date to_date false Sample.stored).2
    = inr [Some (VDateTime (combine_midnight (mk_date 2024 1 3)));
           Some (VDateTime (combine_midnight (mk_date 2024 1 5)))] ∧
  field "date" (SQLiteStorage.get_transactions from_date to_date false
                  Sample.stored_db).2
    = inr [Some (VDateTime (combine_midnight (mk_date 2024 1 5)))] ∧
  Spec.date_bound from_date to_date (mk_date 2024 1 5) = false.
Proof. vm_compute. done. Qed.

(** C4 (amended).  On the document store every [get_transactions]
    returns, sorted ascending by date, exactly the stored transactions
    that pass the [only_new] test and the date filter: both bounds given
    in order, the inclusive range; both given with [from_date] after
    [to_date], no date filter; only [from_date], [date >= from_date];
    only [to_date], [date <= to_date]; neither, no filter.  On the
    relational store, when the bounds of a range have years of four
    digits, the rows selected are exactly the stored rows that pass its
    [only_new] condition and the same date filter; and a call that
    returns hands back, in the order selected, one record for each
    selected row: the core fields of the row, its date parsed, its
    metadata column as shown. *)
Theorem get_transactions_filter :
  (∀ from_date to_date only_new (c : MongoDBStorage.collection),
     ∃ ret,
       MongoDBStorage.get_transactions from_date to_date only_new c = (c, inr ret) ∧
       StronglySorted MongoDBStorage.date_le ret ∧
       ∀ doc, doc ∈ ret ↔
         doc ∈ MongoDBStorage.documents c ∧
         (only_new = true → not_pulled doc = true) ∧
         date_filter from_date to_date doc = true) ∧
  (∀ from_date to_date only_new (s : SQLiteStorage.db) r d,
     valid_bound from_date → valid_bound to_date →
     four_digit_range from_date to_date → stored_on d r →
     r ∈ SQLiteStorage.select
           (SQLiteStorage.conditions_of from_date to_date only_new)
           (SQLiteStorage.transactions s) ↔
     r ∈ SQLiteStorage.transactions s ∧
     (only_new = true → core_not_pulled r = true) ∧
     bounds_filter from_date to_date d = true) ∧
  (∀ from_date to_date only_new (s s' : SQLiteStorage.db) ret,
     SQLiteStorage.get_transactions from_date to_date only_new s = (s', inr ret) →
     Forall2 record_of
       (SQLiteStorage.select
          (SQLiteStorage.conditions_of from_date to_date only_new)
          (SQLiteStorage.transactions s)) ret).
Proof.
  split; [exact mongo_get_transactions_spec|]. split.
  - intros from_date to_date only_new s r d Hf Ht Hyears Hr.
    unfold SQLiteStorage.select.
    rewrite list_elem_of_In, filter_In, <-list_elem_of_In,
      (sqlite_conditions_hold _ _ _ _ d), andb_true_iff by done.
    destruct only_new; simpl; (split; intros (?&?&?); split_and!; auto; discriminate).
  - exact sqlite_get_transactions_records.
Qed.

Lemma get_transactions_filter_witness :
  (Sample.row_T1 ∈ SQLiteStorage.select
     (SQLiteStorage.conditions_of (Some (mk_date 2024 1 1)) (Some (mk_date 2024 1 31))
        true)
     (SQLiteStorage.transactions Sample.stored_db) ↔
   Sample.row_T1 ∈ SQLiteStorage.transactions Sample.stored_db ∧
   (true = true → core_not_pulled Sample.row_T1 = true) ∧
   bounds_filter (Some (mk_date 2024 1 1)) (Some (mk_date 2024 1 31))
     (mk_date 2024 1 5) = true) ∧
  ∃ s' ret,
    SQLiteStorage.get_transactions None None true Sample.stored_db = (s', inr ret) ∧
    Forall2 record_of
      (SQLiteStorage.select (SQLiteStorage.conditions_of None None true)
         (SQLiteStorage.transactions Sample.stored_db)) ret.
Proof.
  split.
  - apply (proj1 (proj2 get_transactions_filter));
      [reflexivity|reflexivity|simpl; lia|].
    split; [reflexivity|by vm_compute].
  - destruct (returns_inr
                (SQLiteStorage.get_transactions None None true Sample.stored_db))
      as (s' & ret & Hget); [by vm_compute|].
    exists s', ret. split; [done|].
    exact (proj2 (proj2 get_transactions_filter) None None true
             Sample.stored_db s' ret Hget).
Defined.

(** ** The adapters *)

(** [serialize_item] returns on every item; a missing consent expiration
    becomes an explicit [None]. *)
Lemma serialize_item_total obj :
  ∃ data, serialize_item obj = inr data ∧
    data !! "consent_expiration_time" =
    Some (match Item.consent_expiration_time obj with
          | Some t => VStr (datetime_isoformat t)
          | None => VNone
          end).
Proof.
  unfold serialize_item. eexists. split; [reflexivity|].
  destruct (Item.consent_expiration_time obj); reflexivity.
Qed.

Lemma serialize_account_base_total obj :
  ∃ data, serialize_account_base obj = inr data.
Proof. by eexists. Qed.

(** [serialize_transaction] returns exactly on the transactions that have
    an authorized date; it then records the date of the transaction as
    ISO text and a missing [datetime] as [None]. *)
Lemma serialize_transaction_returns obj :
  match Transaction.authorized_date obj with
  | Some a =>
      ∃ data, serialize_transaction obj = inr data ∧
        data !! "date" = Some (VStr (date_isoformat (Transaction.date obj))) ∧
        data !! "authorized_date" = Some (VStr (date_isoformat a)) ∧
        data !! "pulled_to_file" = None ∧
        (Transaction.datetime obj = None → data !! "datetime" = Some VNone)
  | None => serialize_transaction obj = inl (AttributeError "isoformat")
  end.
Proof.
  unfold serialize_transaction.
  destruct (Transaction.authorized_date obj) as [a|]; [|done]. simpl.
  eexists. split; [reflexivity|].
  destruct (Transaction.datetime obj); split_and!; try done; reflexivity.
Qed.

(** ** Saving to the relational store *)

Lemma json_safe_dict (d : pydict) :
  json_safe (VDict d) =
  bool_decide (map_Forall (λ _ (b : bool), b = true) (json_safe <$> d)).
Proof. reflexivity. Qed.

Lemma json_safe_empty : json_safe (VDict ∅) = true.
Proof.
  rewrite json_safe_dict, bool_decide_eq_true, fmap_empty. apply map_Forall_empty.
Qed.

Lemma json_safe_insert k v (d : pydict) :
  json_safe v = true → json_safe (VDict d) = true →
  json_safe (VDict (<[k:=v]> d)) = true.
Proof.
  rewrite !json_safe_dict, !bool_decide_eq_true, fmap_insert. intros Hv Hd.
  by apply map_Forall_insert_2.
Qed.

Lemma json_safe_opt_str o : json_safe (opt_str o) = true.
Proof. by destruct o. Qed.

Lemma json_safe_opt_list o : json_safe (opt_list o) = true.
Proof.
  destruct o as [l|]; [|done]. unfold opt_list, str_list. cbn [json_safe].
  induction l as [|x l IH]; [done|]. simpl. exact IH.
Qed.

(** [json.dumps] accepts every serialized transaction. *)
Lemma serialize_transaction_json_safe t json :
  serialize_transaction t = inr json → json_safe (VDict json) = true.
Proof.
  unfold serialize_transaction.
  destruct (Transaction.authorized_date t) as [a|]; [|done].
  cbv beta iota zeta delta [authorized_date_isoformat]. intros [= <-].
  destruct (Transaction.datetime t);
    repeat (apply json_safe_insert;
            [first [apply json_safe_opt_str|apply json_safe_opt_list|reflexivity]|]);
    apply json_safe_empty.
Qed.

(** One iteration of the relational [save_transactions], in full:
    metadata that [json.dumps] refuses ends it in [TypeError], a
    transaction [serialize_transaction] refuses in its error, both with
    nothing written; otherwise the row is upserted. *)
Lemma sqlite_save_transaction_run now t (s : SQLiteStorage.db) :
  SQLiteStorage.save_transaction now t s =
  if metadata_safe t then
    match serialize_transaction t with
    | inr json =>
        (SQLiteStorage.with_table
           (SQLiteStorage.upsert (strftime_utc now) (Transaction.account_id t)
              (Transaction.transaction_id t) json (SQLiteStorage.get_plaid2text t)) s,
         inr tt)
    | inl e => (s, inl e)
    end
  else (s, inl (TypeError "Object is not JSON serializable")).
Proof.
  unfold SQLiteStorage.save_transaction, metadata_safe, json_dumps.
  destruct (SQLiteStorage.get_plaid2text t) as [m|]; cbn [from_option].
  - destruct (json_safe m); [|done]. rewrite lift_bind.
    destruct (serialize_transaction t) as [e|json] eqn:Hjson; [done|].
    rewrite lift_bind. by rewrite (serialize_transaction_json_safe t json Hjson).
  - rewrite lift_bind.
    destruct (serialize_transaction t) as [e|json] eqn:Hjson; [done|].
    rewrite lift_bind. by rewrite (serialize_transaction_json_safe t json Hjson).
Qed.

(** Metadata that holds a datetime is refused, though the transaction
    has an authorized date: nothing is written. *)
Lemma sqlite_save_refuses_datetime_metadata :
  is_Some (Transaction.authorized_date Sample.t1_timed) ∧
  SQLiteStorage.save_transactions Sample.now [Sample.t1_timed] Sample.empty_db
    = (Sample.empty_db, inl (TypeError "Object is not JSON serializable")).
Proof. split; [by eexists|]. by vm_compute. Qed.

Lemma upsert_has_key now act_id trans_id json meta table :
  existsb (SQLiteStorage.same_key act_id trans_id)
    (SQLiteStorage.upsert now act_id trans_id json meta table) = true ∧
  ∀ r, r ∈ SQLiteStorage.upsert now act_id trans_id json meta table →
       SQLiteStorage.same_key act_id trans_id r = true →
       SQLiteStorage.metadata r = meta.
Proof.
  unfold SQLiteStorage.upsert.
  destruct (existsb _ table) eqn:Hexists.
  - split.
    + apply existsb_exists in Hexists as (r & Hin & Hkey).
      apply existsb_exists. eexists. split.
      * apply in_map_iff. exists r. split; [reflexivity|done].
      * rewrite Hkey. unfold SQLiteStorage.same_key in *. done.
    + intros r (r0 & -> & _)%list_elem_of_fmap.
      destruct (SQLiteStorage.same_key act_id trans_id r0) eqn:Hkey0; [done|].
      congruence.
  - split.
    + rewrite existsb_app. simpl. unfold SQLiteStorage.same_key. simpl.
      rewrite !String.eqb_refl. by rewrite orb_true_r.
    + intros r [Hin| ->%list_elem_of_singleton]%elem_of_app; [|done].
      intros Hkey. exfalso.
      assert (existsb (SQLiteStorage.same_key act_id trans_id) table = true);
        [|congruence].
      apply existsb_exists. exists r. split; [by apply list_elem_of_In|done].
Qed.

Lemma upsert_twice_metadata now now' act_id trans_id json json' meta table :
  SQLiteStorage.metadata <$>
    SQLiteStorage.upsert now' act_id trans_id json' meta
      (SQLiteStorage.upsert now act_id trans_id json meta table) =
  SQLiteStorage.metadata <$> SQLiteStorage.upsert now act_id trans_id json meta table.
Proof.
  destruct (upsert_has_key now act_id trans_id json meta table) as [Hexists Hmeta].
  set (table1 := SQLiteStorage.upsert now act_id trans_id json meta table) in *.
  unfold SQLiteStorage.upsert at 1. rewrite Hexists, <-list_fmap_compose.
  apply Forall_fmap_ext, Forall_forall. intros r Hin. simpl.
  destruct (SQLiteStorage.same_key act_id trans_id r) eqn:Hkey; [|done].
  simpl. symmetry. by apply Hmeta.
Qed.

(** On the relational store, saving the very same transaction again
    rewrites the metadata column with the value it already has. *)
Lemma sqlite_resave_same_metadata now now' t (s : SQLiteStorage.db) :
  let s1 := (SQLiteStorage.save_transactions now [t] s).1 in
  let s2 := (SQLiteStorage.save_transactions now' [t] s1).1 in
  metadata_column s2 = metadata_column s1.
Proof.
  intros s1 s2. subst s1 s2. unfold SQLiteStorage.save_transactions.
  rewrite !for_each_cons, !sqlite_save_transaction_run.
  destruct (metadata_safe t); [|done].
  destruct (serialize_transaction t) as [e|json] eqn:Hjson; [done|].
  rewrite !for_each_nil. unfold metadata_column, SQLiteStorage.with_table.
  cbn [fst SQLiteStorage.transactions]. apply upsert_twice_metadata.
Qed.

(** The row a save writes holds the serialized transaction. *)
Lemma upsert_row_json now act_id trans_id json meta table r :
  r ∈ SQLiteStorage.upsert now act_id trans_id json meta table →
  SQLiteStorage.same_key act_id trans_id r = true →
  SQLiteStorage.plaid_json r = json.
Proof.
  unfold SQLiteStorage.upsert. destruct (existsb _ table) eqn:Hexists.
  - intros (r0 & -> & _)%list_elem_of_fmap.
    destruct (SQLiteStorage.same_key act_id trans_id r0) eqn:Hkey0; [done|].
    congruence.
  - intros [Hin| ->%list_elem_of_singleton]%elem_of_app; [|done].
    intros Hkey. exfalso.
    assert (existsb (SQLiteStorage.same_key act_id trans_id) table = true);
      [|congruence].
    apply existsb_exists. exists r. split; [by apply list_elem_of_In|done].
Qed.

(** A transaction with an authorized date, and metadata [json.dumps]
    accepts, is written under its key, with its date as ISO text. *)
Lemma sqlite_save_row_dated now t (s : SQLiteStorage.db) r :
  is_Some (Transaction.authorized_date t) →
  metadata_safe t = true →
  valid_date (Transaction.date t) = true →
  r ∈ SQLiteStorage.transactions (SQLiteStorage.save_transactions now [t] s).1 →
  SQLiteStorage.same_key (Transaction.account_id t) (Transaction.transaction_id t) r
    = true →
  stored_on (Transaction.date t) r.
Proof.
  intros [a Ha] Hsafe Hvalid. unfold SQLiteStorage.save_transactions.
  rewrite for_each_cons, sqlite_save_transaction_run, Hsafe.
  pose proof (serialize_transaction_returns t) as Hjson. rewrite Ha in Hjson.
  destruct Hjson as (json & -> & Hdate & _). rewrite for_each_nil.
  unfold SQLiteStorage.with_table. cbn [fst SQLiteStorage.transactions].
  intros Hin Hkey. split; [done|].
  by rewrite (upsert_row_json _ _ _ _ _ _ _ Hin Hkey).
Qed.

(** A row written from a valid date, whose metadata column is [NULL] or
    holds a mapping, decodes; the record carries the date at midnight. *)
Lemma decode_returns r d :
  stored_on d r →
  (SQLiteStorage.metadata r = None ∨ ∃ m, SQLiteStorage.metadata r = Some (VDict m)) →
  ∃ t, SQLiteStorage.decode r = inr t ∧
       t !! "date" = Some (VDateTime (combine_midnight d)).
Proof.
  intros [Hvalid Hdate] Hmeta. unfold SQLiteStorage.decode.
  set (t0 := match SQLiteStorage.metadata r with
             | Some m => <["plaid2text":=m]> (SQLiteStorage.plaid_json r)
             | None => <["plaid2text":=VDict ∅]> (SQLiteStorage.plaid_json r)
             end).
  assert (Hp : ∃ m, getitem t0 "plaid2text" = inr (VDict m)).
  { unfold getitem, t0. destruct Hmeta as [->|[m ->]];
      rewrite lookup_insert_eq; eauto. }
  assert (Hd0 : t0 !! "date" = Some (VStr (date_isoformat d))).
  { unfold t0. destruct (SQLiteStorage.metadata r); by rewrite lookup_insert_ne. }
  destruct Hp as [m ->]. rewrite result_bind_inr. cbn [len]. rewrite result_bind_inr.
  set (t1 := if size m =? 0 then <["plaid2text":=VNone]> t0 else t0).
  assert (Hd1 : getitem t1 "date" = inr (VStr (date_isoformat d))).
  { unfold getitem, t1. destruct (size m =? 0);
      rewrite ?lookup_insert_ne by done; by rewrite Hd0. }
  rewrite Hd1, result_bind_inr. unfold SQLiteStorage.parse.
  rewrite parse_iso_date_isoformat by done. rewrite result_bind_inr.
  eexists. split; [reflexivity|]. by rewrite lookup_insert_eq.
Qed.

(** X18: the relational [get_transactions] returns when its selection
    is not empty and holds rows of that kind only: a date text written
    from a valid date, and a metadata column that is [NULL] or a
    mapping. *)
Lemma sqlite_get_transactions_returns from_date to_date only_new
    (s : SQLiteStorage.db) :
  let rows :=
    SQLiteStorage.select (SQLiteStorage.conditions_of from_date to_date only_new)
      (SQLiteStorage.transactions s) in
  rows ≠ [] →
  Forall (λ r, (∃ d, stored_on d r) ∧
               (SQLiteStorage.metadata r = None ∨
                ∃ m, SQLiteStorage.metadata r = Some (VDict m))) rows →
  ∃ s' ret, SQLiteStorage.get_transactions from_date to_date only_new s = (s', inr ret).
Proof.
  intros rows Hrows Hall. rewrite sqlite_get_transactions_run. fold rows.
  assert (Hdecode : ∃ ret, SQLiteStorage.decode_all rows = inr ret).
  { clear Hrows. induction Hall as [|r rows' [[d Hd] Hm] _ [ret IH]]; [by eexists|].
    destruct (decode_returns r d Hd Hm) as (t & Ht & _).
    exists (t :: ret). simpl. by rewrite Ht, result_bind_inr, IH. }
  destruct Hdecode as [ret Hret].
  destruct rows as [|first rest]; [done|]. rewrite Hret. eauto.
Qed.

(** ** The document store, operation by operation *)

Lemma to_dict_authorized_date t :
  MongoDBStorage.to_dict t !! "authorized_date" =
  Some (match Transaction.authorized_date t with Some a => VDate a | None => VNone end).
Proof. destruct t as [? ? ? ? ? ? ? ? ? ? ? ? ? ? [m|]]; reflexivity. Qed.

Lemma normalized_other t k :
  k ≠ "date" → k ≠ "authorized_date" →
  normalized t !! k = MongoDBStorage.to_dict t !! k.
Proof.
  intros ? ?. unfold normalized. destruct (Transaction.authorized_date t);
    by rewrite ?(lookup_insert_ne _ "authorized_date"), lookup_insert_ne.
Qed.

Lemma normalized_date t :
  normalized t !! "date" = Some (VDateTime (combine_midnight (Transaction.date t))).
Proof.
  unfold normalized. destruct (Transaction.authorized_date t);
    by rewrite ?(lookup_insert_ne _ "authorized_date"), lookup_insert_eq.
Qed.

(** One iteration of [save_transactions], in full: a pending transaction
    is skipped; one that carries a [plaid2text] of its own is refused by
    the server; any other is upserted under its id, the fields of
    [normalized] over the stored document, or over [TEXT_DOC] when there
    is none. *)
Lemma mongo_save_transaction_run today t (c : MongoDBStorage.collection) :
  MongoDBStorage.save_transaction today t c =
  if Transaction.pending t then (c, inr tt)
  else match Transaction.plaid2text t with
       | Some _ => (c, inl (WriteError "conflict"))
       | None =>
           (match c !! Transaction.transaction_id t with
            | Some doc => <[Transaction.transaction_id t := normalized t ∪ doc]> c
            | None => <[Transaction.transaction_id t := normalized t ∪ TEXT_DOC today]> c
            end, inr tt)
       end.
Proof.
  unfold MongoDBStorage.save_transaction.
  destruct (Transaction.pending t); [done|]. cbn [negb].
  set (D := MongoDBStorage.to_dict t).
  assert (HD1 : getitem D "transaction_id" = inr (VStr (Transaction.transaction_id t))).
  { unfold getitem, D. by rewrite to_dict_transaction_id. }
  assert (HD2 : getitem D "date" ≫= MongoDBStorage.combine
                = inr (VDateTime (combine_midnight (Transaction.date t)))).
  { unfold getitem, D. by rewrite to_dict_date. }
  rewrite HD1, HD2, !lift_bind. clear HD1 HD2.
  set (d := VDateTime (combine_midnight (Transaction.date t))).
  assert (Hset : match getitem (<["date":=d]> D) "authorized_date"
                         ≫= MongoDBStorage.combine with
                 | inl _ => <["date":=d]> D
                 | inr a => <["authorized_date":=a]> (<["date":=d]> D)
                 end = normalized t).
  { unfold getitem, normalized. rewrite lookup_insert_ne by done.
    unfold D. rewrite to_dict_authorized_date.
    by destruct (Transaction.authorized_date t). }
  rewrite Hset. unfold MongoDBStorage.update_many_upsert.
  assert (Hmeta : normalized t !! "plaid2text" = Transaction.plaid2text t).
  { by rewrite normalized_other, to_dict_plaid2text. }
  destruct (bool_decide _) eqn:Hconflict.
  - apply text_doc_conflict in Hconflict. rewrite Hmeta in Hconflict.
    by rewrite Hconflict.
  - destruct (Transaction.plaid2text t) as [m|] eqn:Hm; [done|].
    apply (text_doc_conflict today) in Hmeta. congruence.
Qed.

Set Warnings "-clear-no-such-hyp".

Lemma settled_ids_cons t transactions :
  settled_ids (t :: transactions) =
  if Transaction.pending t then settled_ids transactions
  else {[Transaction.transaction_id t]} ∪ settled_ids transactions.
Proof.
  unfold settled_ids, settled. simpl. by destruct (Transaction.pending t).
Qed.

(** The metadata fields of a document are those of its [plaid2text]. *)
Lemma metadata_field_of key (doc doc' : pydict) :
  metadata_of doc' = metadata_of doc → metadata_field key doc' = metadata_field key doc.
Proof. unfold metadata_of, metadata_field. simpl. by intros ->. Qed.

(** A stored document marked as pulled is in no result of
    [get_transactions(only_new=True)]. *)
Lemma mongo_pulled_not_new (c : MongoDBStorage.collection) id doc
    from_date to_date ret :
  c !! id = Some doc → not_pulled doc = false →
  MongoDBStorage.get_transactions from_date to_date true c = (c, inr ret) →
  ∀ found, found ∈ ret → found !! "_id" ≠ Some (VStr id).
Proof.
  intros Hdoc Hpulled Hget found Hin Hid.
  destruct (mongo_get_transactions_spec from_date to_date true c)
    as (ret' & Hget' & _ & Hret).
  rewrite Hget in Hget'. injection Hget' as <-.
  apply Hret in Hin as (Hstored & Hnew & _).
  apply elem_of_documents in Hstored as (id' & fields & Hfields & ->).
  rewrite lookup_insert_eq in Hid. injection Hid as ->.
  rewrite Hdoc in Hfields. injection Hfields as <-.
  specialize (Hnew eq_refl). unfold not_pulled in *.
  rewrite metadata_field_with_id in Hnew. congruence.
Qed.

(** X1: [MongoDBStorage.save_transactions] upserts.  A settled
    transaction without metadata of its own is stored under its id with
    every field of the transaction as sent (the date as a timestamp at
    midnight), over whatever the stored document held; the metadata is
    that of the stored document, or [TEXT_DOC]'s on a first insert; no
    other document changes. *)
Theorem mongo_save_upserts today t (c : MongoDBStorage.collection) :
  Transaction.pending t = false → Transaction.plaid2text t = None →
  ∃ doc',
    MongoDBStorage.save_transactions today [t] c
      = (<[Transaction.transaction_id t := doc']> c, inr tt) ∧
    (∀ k v, normalized t !! k = Some v → doc' !! k = Some v) ∧
    doc' !! "amount" = Some (VNum (Transaction.amount t)) ∧
    doc' !! "date" = Some (VDateTime (combine_midnight (Transaction.date t))) ∧
    metadata_of doc' =
      match c !! Transaction.transaction_id t with
      | Some doc => metadata_of doc
      | None => TEXT_DOC today !! "plaid2text"
      end.
Proof.
  intros Hpending Hmeta. unfold MongoDBStorage.save_transactions.
  rewrite for_each_cons, mongo_save_transaction_run, Hpending, Hmeta.
  assert (Hnone : normalized t !! "plaid2text" = None).
  { by rewrite normalized_other, to_dict_plaid2text. }
  assert (Hamount : normalized t !! "amount" = Some (VNum (Transaction.amount t))).
  { by rewrite normalized_other, to_dict_amount. }
  pose proof (normalized_date t) as Hdate.
  destruct (c !! Transaction.transaction_id t) as [doc|]; eexists;
    (split; [reflexivity|]); split_and!.
  all: try (intros k v Hk; by apply lookup_union_Some_l).
  all: try by apply lookup_union_Some_l.
  all: unfold metadata_of; by rewrite lookup_union_r.
Qed.

Lemma mongo_save_upserts_witness :
  ∃ doc',
    MongoDBStorage.save_transactions Sample.today [Sample.t1_again] Sample.stored
      = (<["T1" := doc']> Sample.stored, inr tt) ∧
    (∀ k v, normalized Sample.t1_again !! k = Some v → doc' !! k = Some v) ∧
    doc' !! "amount" = Some (VNum 1300) ∧
    doc' !! "date" = Some (VDateTime (combine_midnight (mk_date 2024 1 5))) ∧
    metadata_of doc' =
      match Sample.stored !! "T1" with
      | Some doc => metadata_of doc
      | None => TEXT_DOC Sample.today !! "plaid2text"
      end.
Proof.
  apply (mongo_save_upserts Sample.today Sample.t1_again Sample.stored); reflexivity.
Defined.

(** X2: a batch without metadata of its own is saved whole.  The call
    returns; afterwards the stored ids are those stored before and those
    of the settled transactions of the batch, one document each however
    often an id occurs; documents under other ids are unchanged. *)
Theorem mongo_save_batch today transactions (c : MongoDBStorage.collection) :
  Forall (λ t, Transaction.plaid2text t = None) transactions →
  ∃ c',
    MongoDBStorage.save_transactions today transactions c = (c', inr tt) ∧
    dom c' = dom c ∪ settled_ids transactions ∧
    ∀ id, id ∉ settled_ids transactions → c' !! id = c !! id.
Proof.
  intros Hall. revert c. unfold MongoDBStorage.save_transactions.
  induction Hall as [|t transactions Ht _ IH]; intros c.
  - exists c. split; [done|]. split; [|done]. unfold settled_ids. simpl. set_solver.
  - rewrite for_each_cons, mongo_save_transaction_run, Ht, settled_ids_cons.
    destruct (Transaction.pending t); [apply IH|].
    set (c1 := match c !! Transaction.transaction_id t with
               | Some doc => <[Transaction.transaction_id t:=normalized t ∪ doc]> c
               | None => <[Transaction.transaction_id t:=normalized t ∪ TEXT_DOC today]> c
               end).
    assert (Hdom : dom c1 = {[Transaction.transaction_id t]} ∪ dom c).
    { unfold c1. destruct (c !! Transaction.transaction_id t);
        by rewrite dom_insert_L. }
    assert (Hframe : ∀ id, id ≠ Transaction.transaction_id t → c1 !! id = c !! id).
    { intros id Hid. unfold c1. destruct (c !! Transaction.transaction_id t);
        by rewrite lookup_insert_ne. }
    destruct (IH c1) as (c' & -> & Hdom' & Hframe'). exists c'.
    split; [done|]. split.
    + rewrite Hdom', Hdom. set_solver.
    + intros id Hid. rewrite Hframe' by set_solver. apply Hframe. set_solver.
Qed.

Lemma mongo_save_batch_witness :
  ∃ c',
    MongoDBStorage.save_transactions Sample.today [Sample.t1; Sample.t3; Sample.t1_again] ∅
      = (c', inr tt) ∧
    dom c' = dom (∅ : MongoDBStorage.collection)
             ∪ settled_ids [Sample.t1; Sample.t3; Sample.t1_again] ∧
    ∀ id, id ∉ settled_ids [Sample.t1; Sample.t3; Sample.t1_again] →
          c' !! id = (∅ : MongoDBStorage.collection) !! id.
Proof.
  apply (mongo_save_batch Sample.today [Sample.t1; Sample.t3; Sample.t1_again] ∅).
  repeat constructor.
Defined.

(** X3: a download never puts an exported transaction back among the
    new ones.  Once a stored document is marked as pulled, it stays out
    of every [get_transactions(only_new=True)] after any further
    [save_transactions], whatever the batch and however the save ends. *)
Theorem mongo_pulled_survives_save today transactions
    (c : MongoDBStorage.collection) id doc from_date to_date ret :
  c !! id = Some doc → not_pulled doc = false →
  let c' := (MongoDBStorage.save_transactions today transactions c).1 in
  MongoDBStorage.get_transactions from_date to_date true c' = (c', inr ret) →
  ∀ found, found ∈ ret → found !! "_id" ≠ Some (VStr id).
Proof.
  intros Hdoc Hpulled c'.
  destruct (mongo_save_keeps_metadata today transactions c id doc Hdoc)
    as (doc' & Hdoc' & Hmeta).
  apply (mongo_pulled_not_new c' id doc'); [done|].
  unfold not_pulled in *. by rewrite (metadata_field_of _ doc doc').
Qed.

(** The sample collections, without computing them. *)
Lemma sample_stored_T1 : is_Some (Sample.stored !! "T1").
Proof.
  apply (mongo_save_transactions_stores Sample.today [Sample.t1; Sample.t2]
           Sample.t1 ∅); [repeat constructor|left|reflexivity].
Qed.

Lemma sample_patch_well_formed :
  Forall (λ txn : pydict, is_Some (txn !! "transaction_id")) [Sample.patch_T1].
Proof. repeat constructor. by exists (VStr "T1"). Qed.

Lemma sample_patch_targets :
  Exists (λ txn, targets "T1" txn = true) [Sample.patch_T1].
Proof. by left. Qed.

Lemma sample_exported_T1 :
  ∃ doc, Sample.exported_store !! "T1" = Some doc ∧ not_pulled doc = false.
Proof.
  destruct sample_stored_T1 as [doc0 Hdoc0].
  destruct (mongo_update_transaction_lookup Sample.now (Some true) [Sample.patch_T1]
              Sample.stored sample_patch_well_formed) as (c' & Hrun & Hlook).
  specialize (Hlook "T1"). rewrite Hdoc0 in Hlook.
  destruct Hlook as (doc & Hdoc & _ & Hmeta). exists doc. split.
  - unfold Sample.exported_store. by rewrite Hrun.
  - destruct (last_patch_is_Some "T1" [Sample.patch_T1] sample_patch_targets)
      as [txn Htxn].
    rewrite Htxn in Hmeta. unfold not_pulled, metadata_field, metadata_of in *.
    simpl. by rewrite Hmeta, stamp_pulled.
Qed.

Lemma mongo_pulled_survives_save_witness :
  ∃ ret,
    MongoDBStorage.get_transactions None None true
      (MongoDBStorage.save_transactions Sample.later [Sample.t1_again]
         Sample.exported_store).1
    = ((MongoDBStorage.save_transactions Sample.later [Sample.t1_again]
          Sample.exported_store).1, inr ret) ∧
    ∀ found, found ∈ ret → found !! "_id" ≠ Some (VStr "T1").
Proof.
  destruct sample_exported_T1 as (doc & Hdoc & Hpulled).
  destruct (mongo_get_transactions_spec None None true
              (MongoDBStorage.save_transactions Sample.later [Sample.t1_again]
                 Sample.exported_store).1) as (ret & Hget & _).
  exists ret. split; [done|].
  exact (mongo_pulled_survives_save Sample.later [Sample.t1_again]
           Sample.exported_store "T1" doc None None ret Hdoc Hpulled Hget).
Defined.


Lemma mongo_returns_no_pending_witness :
  ∃ ret,
    MongoDBStorage.get_transactions None None false Sample.stored
      = (Sample.stored, inr ret) ∧
    ∀ doc, doc ∈ ret → doc !! "pending" = Some (VBool false).
Proof.
  destruct (mongo_get_transactions_spec None None false Sample.stored)
    as (ret & Hget & _).
  exists ret. split; [done|].
  apply (mongo_returns_no_pending Sample.stored None None false ret); [|done].
  apply reachable_save, reachable_empty.
Defined.

(** ** Listing the document store *)

Lemma list_filter_submseteq {A} (f : A → bool) (l : list A) :
  List.filter f l ⊆+ l.
Proof.
  induction l as [|x l IH]; simpl; [done|].
  destruct (f x); [by apply submseteq_skip|by apply submseteq_cons].
Qed.

Lemma list_filter_all {A} (f : A → bool) (l : list A) :
  (∀ x, f x = true) → List.filter f l = l.
Proof.
  intros Hall. induction l as [|x l IH]; simpl; [done|]. by rewrite Hall, IH.
Qed.

(** Every result is the sorted filter of the stored documents. *)
Lemma mongo_get_transactions_run from_date to_date only_new
    (c : MongoDBStorage.collection) :
  MongoDBStorage.get_transactions from_date to_date only_new c =
  (c, inr (MongoDBStorage.sort_by_date
             (MongoDBStorage.find
                (MongoDBStorage.query_of from_date to_date only_new) c))).
Proof. reflexivity. Qed.

(** X6: [get_transactions] loses and repeats nothing.  Without bounds and
    with [only_new=False] it returns every stored document once, a
    permutation of the collection, as many records as there are stored
    ids; every other call returns a part of that listing, each document
    at most once. *)
Theorem mongo_get_transactions_listing from_date to_date only_new
    (c : MongoDBStorage.collection) :
  ∃ all ret,
    MongoDBStorage.get_transactions None None false c = (c, inr all) ∧
    MongoDBStorage.get_transactions from_date to_date only_new c = (c, inr ret) ∧
    all ≡ₚ MongoDBStorage.documents c ∧
    length all = size c ∧
    ret ⊆+ all.
Proof.
  eexists _, _. split; [apply mongo_get_transactions_run|].
  split; [apply mongo_get_transactions_run|].
  unfold MongoDBStorage.sort_by_date, MongoDBStorage.find.
  assert (Hall : List.filter
                   (MongoDBStorage.matches (MongoDBStorage.query_of None None false))
                   (MongoDBStorage.documents c) = MongoDBStorage.documents c).
  { by apply list_filter_all. }
  rewrite Hall. split_and!.
  - apply merge_sort_Permutation.
  - rewrite merge_sort_Permutation. unfold MongoDBStorage.documents.
    by rewrite length_fmap, length_map_to_list.
  - rewrite !merge_sort_Permutation. apply list_filter_submseteq.
Qed.

(** Every document of a reachable collection holds its date as a
    timestamp at midnight. *)
Lemma reachable_dated (c : MongoDBStorage.collection) :
  reachable c →
  ∀ id doc, c !! id = Some doc →
    ∃ d, doc !! "date" = Some (VDateTime (combine_midnight d)).
Proof.
  set (P := λ s : MongoDBStorage.collection,
    ∀ id doc, s !! id = Some doc →
      ∃ d, doc !! "date" = Some (VDateTime (combine_midnight d))).
  intros Hreach. change (P c).
  induction Hreach as [|today transactions c _ IH|now update mark c _ IH].
  - intros id doc. by rewrite lookup_empty.
  - apply (for_each_invariant P); [|done]. intros t s Hs id doc.
    rewrite mongo_save_transaction_run.
    destruct (Transaction.pending t); [apply Hs|].
    destruct (Transaction.plaid2text t); [apply Hs|]. simpl.
    destruct (decide (id = Transaction.transaction_id t)) as [->|Hne].
    + destruct (s !! Transaction.transaction_id t);
        rewrite lookup_insert_eq; intros [= <-];
        exists (Transaction.date t);
        apply lookup_union_Some_l, normalized_date.
    + destruct (s !! Transaction.transaction_id t);
        rewrite lookup_insert_ne by done; apply Hs.
  - apply (for_each_invariant P); [|done]. intros txn s Hs id doc.
    destruct (txn !! "transaction_id") as [v|] eqn:Hv.
    + destruct (mongo_update_entry_lookup now mark txn s) as (s' & -> & Hlook); [eauto|].
      simpl. specialize (Hlook id). destruct (s !! id) as [doc0|] eqn:Hdoc0.
      * destruct Hlook as (doc' & -> & Hframe & _). intros [= <-].
        rewrite Hframe by done. by apply (Hs id).
      * by rewrite Hlook.
    + unfold MongoDBStorage.update_entry, pop. rewrite Hv. apply Hs.
Qed.

(** X7: on a collection built by the store itself, the date filter is a
    filter on calendar dates.  A stored document is returned exactly
    when it is new (if [only_new]) and the date it was saved with passes
    the bounds: both in order, the inclusive range; both out of order, no
    filter; one bound, that side only. *)
Theorem mongo_get_by_calendar_date from_date to_date only_new
    (c : MongoDBStorage.collection) :
  reachable c →
  ∃ ret,
    MongoDBStorage.get_transactions from_date to_date only_new c = (c, inr ret) ∧
    ∀ doc, doc ∈ ret ↔
      doc ∈ MongoDBStorage.documents c ∧
      (only_new = true → not_pulled doc = true) ∧
      ∃ d, doc !! "date" = Some (VDateTime (combine_midnight d)) ∧
           bounds_filter from_date to_date d = true.
Proof.
  intros Hreach.
  destruct (mongo_get_transactions_spec from_date to_date only_new c)
    as (ret & Hget & _ & Hret).
  exists ret. split; [done|]. intros doc. rewrite Hret. split.
  - intros (Hstored & Hnew & Hfilter). split; [done|]. split; [done|].
    pose proof Hstored as Hin.
    apply elem_of_documents in Hin as (id & fields & Hfields & ->).
    destruct (reachable_dated c Hreach id fields Hfields) as [d Hd].
    exists d. split; [by rewrite lookup_insert_ne|].
    rewrite <-(date_filter_midnight _ _ (<["_id":=VStr id]> fields)); [done|].
    unfold MongoDBStorage.date_key. by rewrite lookup_insert_ne, Hd.
  - intros (Hstored & Hnew & d & Hd & Hfilter). split; [done|]. split; [done|].
    rewrite (date_filter_midnight _ _ doc d); [done|].
    unfold MongoDBStorage.date_key. by rewrite Hd.
Qed.

Lemma mongo_get_by_calendar_date_witness :
  ∃ ret,
    MongoDBStorage.get_transactions (Some (mk_date 2024 1 4)) None true Sample.stored
      = (Sample.stored, inr ret) ∧
    ∀ doc, doc ∈ ret ↔
      doc ∈ MongoDBStorage.documents Sample.stored ∧
      (true = true → not_pulled doc = true) ∧
      ∃ d, doc !! "date" = Some (VDateTime (combine_midnight d)) ∧
           bounds_filter (Some (mk_date 2024 1 4)) None d = true.
Proof.
  apply (mongo_get_by_calendar_date (Some (mk_date 2024 1 4)) None true Sample.stored).
  apply reachable_save, reachable_empty.
Defined.

(** ** Updates that fail, and updates that take a mark back *)






(** ** The latest stored date, and whether anything is new *)

#[export] Instance date_ge_trans : Transitive MongoDBStorage.date_ge.
Proof. intros a b c Hab Hbc. unfold MongoDBStorage.date_ge in *. by etrans. Qed.

#[export] Instance date_ge_total : Total MongoDBStorage.date_ge.
Proof. intros a b. unfold MongoDBStorage.date_ge. destruct (total MongoDBStorage.date_le a b); auto. Qed.

Lemma find_all (c : MongoDBStorage.collection) :
  MongoDBStorage.find [] c = MongoDBStorage.documents c.
Proof. unfold MongoDBStorage.find. by apply list_filter_all. Qed.

Lemma documents_nil (c : MongoDBStorage.collection) :
  MongoDBStorage.documents c = [] → c = ∅.
Proof.
  unfold MongoDBStorage.documents. intros Hnil%fmap_nil_inv.
  by apply map_to_list_empty_iff.
Qed.

(** X10: [get_latest_transaction_date] on a collection the store built.
    On an empty collection it raises [IndexError]; on any other it
    returns the latest stored date: the timestamp of some stored
    document, and no stored document has a later one. *)
Theorem mongo_latest_transaction_date (c : MongoDBStorage.collection) :
  reachable c →
  (c = ∅ ∧ MongoDBStorage.get_latest_transaction_date c = (c, inl IndexError)) ∨
  (c ≠ ∅ ∧ ∃ latest,
     MongoDBStorage.get_latest_transaction_date c = (c, inr (VDateTime latest)) ∧
     (∃ doc, doc ∈ MongoDBStorage.documents c ∧
             MongoDBStorage.date_key doc = Some latest) ∧
     ∀ doc, doc ∈ MongoDBStorage.documents c →
       ∃ x, MongoDBStorage.date_key doc = Some x ∧ datetime_leb x latest = true).
Proof.
  intros Hreach.
  assert (Hdated : ∀ doc, doc ∈ MongoDBStorage.documents c →
            ∃ x, MongoDBStorage.date_key doc = Some x ∧
                 doc !! "date" = Some (VDateTime x)).
  { intros doc (id & fields & Hfields & ->)%elem_of_documents.
    destruct (reachable_dated c Hreach id fields Hfields) as [d Hd].
    exists (combine_midnight d). unfold MongoDBStorage.date_key.
    by rewrite lookup_insert_ne, Hd. }
  cbv beta iota delta [MongoDBStorage.get_latest_transaction_date mbind M_bind
                         get_state lift].
  rewrite find_all.
  assert (Hsorted : StronglySorted MongoDBStorage.date_ge
            (MongoDBStorage.sort_by_date_desc (MongoDBStorage.documents c))).
  { apply (StronglySorted_merge_sort _). }
  assert (Hperm : MongoDBStorage.sort_by_date_desc (MongoDBStorage.documents c)
                  ≡ₚ MongoDBStorage.documents c).
  { apply merge_sort_Permutation. }
  destruct (MongoDBStorage.sort_by_date_desc (MongoDBStorage.documents c))
    as [|top rest] eqn:Hsort.
  - left. apply Permutation_nil_l in Hperm. symmetry in Hperm.
    apply documents_nil in Hperm. by subst.
  - right. split.
    { intros ->. unfold MongoDBStorage.documents in Hperm.
      rewrite map_to_list_empty in Hperm. by apply Permutation_nil_r in Hperm. }
    assert (Htop : top ∈ MongoDBStorage.documents c).
    { rewrite <-Hperm. by left. }
    destruct (Hdated top Htop) as (latest & Hkey & Hdate).
    exists latest. split; [simpl; unfold getitem; by rewrite Hdate|].
    split; [eauto|]. intros doc Hdoc.
    destruct (Hdated doc Hdoc) as (x & Hx & _). exists x. split; [done|].
    rewrite <-Hperm in Hdoc. apply StronglySorted_inv in Hsorted as [_ Hrest].
    apply elem_of_cons in Hdoc as [->|Hin].
    + assert (x = latest) as -> by congruence.
      apply (ordering_le_refl _ _ datetime_ordering).
    + rewrite Forall_forall in Hrest. specialize (Hrest doc Hin).
      unfold MongoDBStorage.date_ge, MongoDBStorage.date_le in Hrest.
      by rewrite Hx, Hkey in Hrest.
Qed.

Lemma mongo_latest_transaction_date_witness :
  (Sample.stored = ∅ ∧
   MongoDBStorage.get_latest_transaction_date Sample.stored
     = (Sample.stored, inl IndexError)) ∨
  (Sample.stored ≠ ∅ ∧ ∃ latest,
     MongoDBStorage.get_latest_transaction_date Sample.stored
       = (Sample.stored, inr (VDateTime latest)) ∧
     (∃ doc, doc ∈ MongoDBStorage.documents Sample.stored ∧
             MongoDBStorage.date_key doc = Some latest) ∧
     ∀ doc, doc ∈ MongoDBStorage.documents Sample.stored →
       ∃ x, MongoDBStorage.date_key doc = Some x ∧ datetime_leb x latest = true).
Proof.
  apply (mongo_latest_transaction_date Sample.stored).
  apply reachable_save, reachable_empty.
Defined.

(** X11: [check_pending] on the document store answers whether
    [get_transactions()] would return anything.  It returns, changes
    nothing, and is true exactly when some stored document is not marked
    as pulled, that is when the unbounded listing of new transactions is
    not empty. *)
Theorem mongo_check_pending_new (c : MongoDBStorage.collection) :
  ∃ pending new,
    MongoDBStorage.check_pending c = (c, inr pending) ∧
    MongoDBStorage.get_transactions None None true c = (c, inr new) ∧
    (pending = true ↔ new ≠ []) ∧
    (pending = true ↔
       ∃ doc, doc ∈ MongoDBStorage.documents c ∧ not_pulled doc = true).
Proof.
  destruct (mongo_get_transactions_spec None None true c) as (new & Hget & _ & Hnew).
  exists (0 <? length (MongoDBStorage.find [(MongoDBStorage.pulled_path,
                                             MongoDBStorage.Ne true)] c)), new.
  split; [done|]. split; [done|].
  assert (Hlen : length new =
                 length (MongoDBStorage.find [(MongoDBStorage.pulled_path,
                                               MongoDBStorage.Ne true)] c)).
  { rewrite mongo_get_transactions_run in Hget. injection Hget as <-.
    unfold MongoDBStorage.sort_by_date. by rewrite merge_sort_Permutation. }
  rewrite <-Hlen.
  assert (Hpos : (0 <? length new) = true ↔ new ≠ []).
  { rewrite Nat.ltb_lt. destruct new; simpl; split; (done || lia). }
  split; [done|]. rewrite Hpos. split.
  - intros Hne. destruct new as [|doc new]; [done|]. exists doc.
    destruct (proj1 (Hnew doc)) as (? & ? & _); [by left|]. auto.
  - intros (doc & Hdoc & Hnot) ->.
    assert (Hin : doc ∈ @nil pydict) by (apply Hnew; auto).
    by apply elem_of_nil in Hin.
Qed.

(** ** The relational store, operation by operation *)

Lemma find_app {A} (f : A → bool) (l1 l2 : list A) :
  List.find f (l1 ++ l2) =
  match List.find f l1 with Some x => Some x | None => List.find f l2 end.
Proof. induction l1 as [|x l1 IH]; simpl; [done|]. by destruct (f x). Qed.

Lemma find_fmap {A} (f : A → bool) (g : A → A) (l : list A) :
  (∀ x, f (g x) = f x) → List.find f (g <$> l) = g <$> List.find f l.
Proof.
  intros Hfg. induction l as [|x l IH]; simpl; [done|].
  rewrite Hfg. by destruct (f x).
Qed.

Lemma find_fmap_id {A} (f : A → bool) (g : A → A) (l : list A) :
  (∀ x, f (g x) = f x) → (∀ x, f x = true → g x = x) →
  List.find f (g <$> l) = List.find f l.
Proof.
  intros Hfg Hid. induction l as [|x l IH]; simpl; [done|].
  rewrite Hfg. destruct (f x) eqn:Hx; [by rewrite Hid|done].
Qed.

Lemma existsb_find {A} (f : A → bool) (l : list A) :
  existsb f l = match List.find f l with Some _ => true | None => false end.
Proof. induction l as [|x l IH]; simpl; [done|]. by destruct (f x). Qed.

(** Two keys select the same rows exactly when they are the same key. *)
Lemma same_key_other act_id trans_id act_id' trans_id' r :
  (act_id', trans_id') ≠ (act_id, trans_id) →
  SQLiteStorage.same_key act_id' trans_id' r = true →
  SQLiteStorage.same_key act_id trans_id r = false.
Proof.
  unfold SQLiteStorage.same_key. intros Hne [H1 H2]%andb_true_iff.
  apply String.eqb_eq in H1, H2. subst.
  destruct (String.eqb_spec (SQLiteStorage.account_id r) act_id);
    destruct (String.eqb_spec (SQLiteStorage.transaction_id r) trans_id);
    try done. by subst.
Qed.

Lemma same_key_row_key act_id trans_id r :
  SQLiteStorage.same_key act_id trans_id r = true ↔ row_key r = (act_id, trans_id).
Proof.
  unfold SQLiteStorage.same_key, row_key.
  rewrite andb_true_iff, !String.eqb_eq. split; [by intros [-> ->]|by intros [= -> ->]].
Qed.

(** What the upsert leaves under its own key. *)
Lemma find_upsert_same now act_id trans_id json meta table :
  List.find (SQLiteStorage.same_key act_id trans_id)
    (SQLiteStorage.upsert now act_id trans_id json meta table) =
  Some match List.find (SQLiteStorage.same_key act_id trans_id) table with
       | Some old =>
           SQLiteStorage.mk_row (SQLiteStorage.account_id old)
             (SQLiteStorage.transaction_id old) (SQLiteStorage.created old)
             now json meta
       | None => SQLiteStorage.mk_row act_id trans_id now now json meta
       end.
Proof.
  unfold SQLiteStorage.upsert. rewrite existsb_find.
  destruct (List.find _ table) as [old|] eqn:Hfind.
  - rewrite find_fmap.
    + rewrite Hfind. simpl. apply find_some in Hfind as [_ Hkey]. by rewrite Hkey.
    + intros r. by destruct (SQLiteStorage.same_key act_id trans_id r) eqn:Hr.
  - rewrite find_app, Hfind. simpl. unfold SQLiteStorage.same_key. simpl.
    by rewrite !String.eqb_refl.
Qed.

(** What it leaves under every other key. *)
Lemma find_upsert_other now act_id trans_id json meta table act_id' trans_id' :
  (act_id', trans_id') ≠ (act_id, trans_id) →
  List.find (SQLiteStorage.same_key act_id' trans_id')
    (SQLiteStorage.upsert now act_id trans_id json meta table) =
  List.find (SQLiteStorage.same_key act_id' trans_id') table.
Proof.
  intros Hne. unfold SQLiteStorage.upsert. destruct (existsb _ table).
  - apply find_fmap_id.
    + intros r. by destruct (SQLiteStorage.same_key act_id trans_id r).
    + intros r Hr. by rewrite (same_key_other _ _ _ _ _ Hne Hr).
  - rewrite find_app. destruct (List.find _ table); [done|]. simpl.
    destruct (SQLiteStorage.same_key act_id' trans_id' _) eqn:Hkey; [|done].
    apply same_key_row_key in Hkey. unfold row_key in Hkey. simpl in Hkey.
    congruence.
Qed.

(** The keys of the table after an upsert. *)
Lemma upsert_keys now act_id trans_id json meta table :
  row_key <$> SQLiteStorage.upsert now act_id trans_id json meta table =
  if existsb (SQLiteStorage.same_key act_id trans_id) table
  then row_key <$> table
  else (row_key <$> table) ++ [(act_id, trans_id)].
Proof.
  unfold SQLiteStorage.upsert. destruct (existsb _ table) eqn:Hexists.
  - rewrite <-list_fmap_compose. apply list_fmap_ext. intros i r _. simpl.
    by destruct (SQLiteStorage.same_key act_id trans_id r).
  - by rewrite fmap_app.
Qed.

Lemma upsert_NoDup now act_id trans_id json meta table :
  NoDup (row_key <$> table) →
  NoDup (row_key <$> SQLiteStorage.upsert now act_id trans_id json meta table).
Proof.
  intros Hnodup. rewrite upsert_keys.
  destruct (existsb _ table) eqn:Hexists; [done|].
  apply NoDup_app. split; [done|]. split; [|apply NoDup_singleton].
  intros k (r & Hk & Hin)%list_elem_of_fmap Hone%list_elem_of_singleton.
  assert (existsb (SQLiteStorage.same_key act_id trans_id) table = true);
    [|congruence].
  apply existsb_exists. exists r. split; [by apply list_elem_of_In|].
  apply same_key_row_key. congruence.
Qed.

(** X12: the relational [save_transactions] upserts on the key
    (account, transaction).  A transaction with an authorized date, whose
    metadata, if it carries any, [json.dumps] accepts, is written;
    afterwards the row under its key holds the serialized transaction,
    the metadata the transaction carries (NULL when it carries none),
    the time of the save as [updated], and as [created] the time the row
    was first written; the rows under every other key, and the console,
    are as they were. *)
Theorem sqlite_save_upserts now t (s : SQLiteStorage.db) :
  is_Some (Transaction.authorized_date t) →
  metadata_safe t = true →
  ∃ s' json,
    SQLiteStorage.save_transactions now [t] s = (s', inr tt) ∧
    serialize_transaction t = inr json ∧
    SQLiteStorage.stdout s' = SQLiteStorage.stdout s ∧
    find_row (txn_key t) s' =
      Some (SQLiteStorage.mk_row (Transaction.account_id t)
              (Transaction.transaction_id t)
              (match find_row (txn_key t) s with
               | Some old => SQLiteStorage.created old
               | None => strftime_utc now
               end)
              (strftime_utc now) json (SQLiteStorage.get_plaid2text t)) ∧
    ∀ key, key ≠ txn_key t → find_row key s' = find_row key s.
Proof.
  intros [a Ha] Hsafe. pose proof (serialize_transaction_returns t) as Hjson.
  rewrite Ha in Hjson. destruct Hjson as (json & Hjson & _).
  unfold SQLiteStorage.save_transactions.
  rewrite for_each_cons, sqlite_save_transaction_run, Hsafe, Hjson, for_each_nil.
  eexists _, json. split; [reflexivity|]. split; [done|]. split; [done|].
  unfold find_row, txn_key, SQLiteStorage.with_table. cbn [fst snd SQLiteStorage.transactions].
  split.
  - rewrite find_upsert_same.
    destruct (List.find _ (SQLiteStorage.transactions s)) as [old|] eqn:Hold; [|done].
    apply find_some in Hold as [_ Hkey]. apply same_key_row_key in Hkey.
    unfold row_key in Hkey. by injection Hkey as -> ->.
  - intros [act_id' trans_id'] Hne. by apply find_upsert_other.
Qed.

Lemma sqlite_save_upserts_witness :
  ∃ s' json,
    SQLiteStorage.save_transactions Sample.later [Sample.t1_again] Sample.stored_db
      = (s', inr tt) ∧
    serialize_transaction Sample.t1_again = inr json ∧
    SQLiteStorage.stdout s' = SQLiteStorage.stdout Sample.stored_db ∧
    find_row (txn_key Sample.t1_again) s' =
      Some (SQLiteStorage.mk_row "A1" "T1"
              (match find_row (txn_key Sample.t1_again) Sample.stored_db with
               | Some old => SQLiteStorage.created old
               | None => strftime_utc Sample.later
               end)
              (strftime_utc Sample.later) json
              (SQLiteStorage.get_plaid2text Sample.t1_again)) ∧
    ∀ key, key ≠ txn_key Sample.t1_again →
           find_row key s' = find_row key Sample.stored_db.
Proof.
  apply (sqlite_save_upserts Sample.later Sample.t1_again Sample.stored_db).
  - by exists (mk_date 2024 1 4).
  - reflexivity.
Defined.

(** X13: what every relational save keeps, whatever the batch and
    however the call ends: the table has one row per key, as its unique
    index demands; no row is deleted; and the [created] time of a row
    that was there is not touched. *)
Theorem sqlite_save_keeps_rows now transactions (s : SQLiteStorage.db) :
  NoDup (row_key <$> SQLiteStorage.transactions s) →
  let s' := (SQLiteStorage.save_transactions now transactions s).1 in
  NoDup (row_key <$> SQLiteStorage.transactions s') ∧
  ∀ key r, find_row key s = Some r →
    ∃ r', find_row key s' = Some r' ∧
          SQLiteStorage.created r' = SQLiteStorage.created r.
Proof.
  intros Hnodup.
  set (P := λ s' : SQLiteStorage.db,
    NoDup (row_key <$> SQLiteStorage.transactions s') ∧
    ∀ key r, find_row key s = Some r →
      ∃ r', find_row key s' = Some r' ∧
            SQLiteStorage.created r' = SQLiteStorage.created r).
  change (P (SQLiteStorage.save_transactions now transactions s).1).
  apply (for_each_invariant P); [|split; eauto].
  intros t s1 [Hkeys Hrows]. rewrite sqlite_save_transaction_run.
  destruct (metadata_safe t); [|done].
  destruct (serialize_transaction t) as [e|json]; [done|].
  split; cbn [fst]; unfold SQLiteStorage.with_table;
    cbn [SQLiteStorage.transactions].
  - by apply upsert_NoDup.
  - intros [act_id trans_id] r Hr. destruct (Hrows _ r Hr) as (r1 & Hr1 & Hcreated).
    unfold find_row in *. cbn [fst snd SQLiteStorage.transactions] in *.
    destruct (decide ((act_id, trans_id) = txn_key t)) as [Heq|Hne].
    + unfold txn_key in Heq. injection Heq as -> ->.
      rewrite find_upsert_same, Hr1. eauto.
    + rewrite find_upsert_other by done. eauto.
Qed.

Lemma sqlite_save_keeps_rows_witness :
  let s' := (SQLiteStorage.save_transactions Sample.later
               [Sample.t1_again; Sample.t2; Sample.t3] Sample.empty_db).1 in
  NoDup (row_key <$> SQLiteStorage.transactions s') ∧
  ∀ key r, find_row key Sample.empty_db = Some r →
    ∃ r', find_row key s' = Some r' ∧
          SQLiteStorage.created r' = SQLiteStorage.created r.
Proof.
  apply (sqlite_save_keeps_rows Sample.later [Sample.t1_again; Sample.t2; Sample.t3]
           Sample.empty_db).
  apply NoDup_nil_2.
Defined.

(** X14: the relational [save_transactions] commits row by row and is
    not atomic.  At the first transaction it cannot write it raises:
    the [TypeError] of [json.dumps] when the metadata the transaction
    carries is not JSON, the [AttributeError] of [serialize_transaction]
    when it has no authorized date.  The transactions before it have
    been written and stay written, those after it are not saved. *)
Theorem sqlite_save_stops_at_undated now pre bad post (s : SQLiteStorage.db) :
  Forall (λ t, metadata_safe t = true ∧ is_Some (Transaction.authorized_date t)) pre →
  metadata_safe bad = false ∨ Transaction.authorized_date bad = None →
  ∃ s',
    SQLiteStorage.save_transactions now pre s = (s', inr tt) ∧
    SQLiteStorage.save_transactions now (pre ++ bad :: post) s
      = (s', inl (if metadata_safe bad then AttributeError "isoformat"
                  else TypeError "Object is not JSON serializable")).
Proof.
  intros Hpre Hbad. unfold SQLiteStorage.save_transactions.
  destruct (for_each_returns
              (λ t, metadata_safe t = true ∧ is_Some (Transaction.authorized_date t))
              (SQLiteStorage.save_transaction now) pre) with (s := s)
    as [s' Hrun]; [|done|].
  - intros t s0 [Hsafe [a Ha]]. rewrite sqlite_save_transaction_run, Hsafe.
    pose proof (serialize_transaction_returns t) as Hjson. rewrite Ha in Hjson.
    destruct Hjson as (json & -> & _). eauto.
  - exists s'. split; [done|].
    rewrite for_each_app, Hrun, for_each_cons, sqlite_save_transaction_run.
    destruct (metadata_safe bad); [|done].
    destruct Hbad as [?|Hbad]; [done|].
    pose proof (serialize_transaction_returns bad) as Hjson.
    rewrite Hbad in Hjson. by rewrite Hjson.
Qed.

Lemma sqlite_save_stops_at_undated_witness :
  ∃ s',
    SQLiteStorage.save_transactions Sample.now [Sample.t1] Sample.empty_db
      = (s', inr tt) ∧
    SQLiteStorage.save_transactions Sample.now
      ([Sample.t1] ++ Sample.t2 :: [Sample.t3]) Sample.empty_db
      = (s', inl (if metadata_safe Sample.t2 then AttributeError "isoformat"
                  else TypeError "Object is not JSON serializable")).
Proof.
  apply (sqlite_save_stops_at_undated Sample.now [Sample.t1] Sample.t2 [Sample.t3]
           Sample.empty_db).
  - repeat constructor. by exists (mk_date 2024 1 4).
  - right. reflexivity.
Defined.

(** The relational [update_transaction] leaves the connection as it was. *)
Lemma sqlite_update_transaction_state now update mark (s : SQLiteStorage.db) :
  (SQLiteStorage.update_transaction now update mark s).1 = s.
Proof.
  unfold SQLiteStorage.update_transaction. destruct update as [|txn update]; [done|].
  rewrite for_each_cons. unfold SQLiteStorage.update_entry, pop.
  by destruct (txn !! "transaction_id").
Qed.

(** X15: the relational [update_transaction] never writes.  Called with
    any patch at all it raises, [KeyError] when the first patch has no
    [transaction_id] and [NameError] for the unbound name [null]
    otherwise, before its UPDATE statement is reached; the table and the
    console are as they were, whatever the mark.  Only the empty update
    returns. *)
Theorem sqlite_update_never_writes now update mark (s : SQLiteStorage.db) :
  SQLiteStorage.update_transaction now update mark s =
  (s, match update with
      | [] => inr tt
      | txn :: _ =>
          inl (match txn !! "transaction_id" with
               | Some _ => NameError "null"
               | None => KeyError "transaction_id"
               end)
      end).
Proof.
  unfold SQLiteStorage.update_transaction. destruct update as [|txn update]; [done|].
  rewrite for_each_cons. unfold SQLiteStorage.update_entry, pop.
  by destruct (txn !! "transaction_id").
Qed.

(** ** Reading back what the relational store wrote *)

(** What a serialized transaction holds, and what it never holds. *)
Lemma serialize_transaction_fields t json :
  serialize_transaction t = inr json →
  json !! "pulled_to_file" = None ∧
  json !! "plaid2text" = None ∧
  json !! "date" = Some (VStr (date_isoformat (Transaction.date t))) ∧
  json !! "transaction_id" = Some (VStr (Transaction.transaction_id t)) ∧
  json !! "account_id" = Some (VStr (Transaction.account_id t)) ∧
  json !! "amount" = Some (VNum (Transaction.amount t)).
Proof.
  unfold serialize_transaction.
  destruct (Transaction.authorized_date t) as [a|]; [|done]. simpl.
  intros [= <-]. destruct (Transaction.datetime t); split_and!; reflexivity.
Qed.

Lemma transactions_get from_date to_date only_new (s : SQLiteStorage.db) :
  SQLiteStorage.transactions
    (SQLiteStorage.get_transactions from_date to_date only_new s).1
  = SQLiteStorage.transactions s.
Proof.
  rewrite sqlite_get_transactions_run. by destruct (SQLiteStorage.select _ _).
Qed.

Lemma upsert_Forall (P : SQLiteStorage.row → Prop) now act_id trans_id json meta table :
  Forall P table →
  (∀ r, SQLiteStorage.plaid_json r = json → SQLiteStorage.metadata r = meta → P r) →
  Forall P (SQLiteStorage.upsert now act_id trans_id json meta table).
Proof.
  intros Htable Hnew. unfold SQLiteStorage.upsert. destruct (existsb _ table).
  - apply Forall_fmap. eapply Forall_impl; [done|]. intros r Hr. simpl.
    destruct (SQLiteStorage.same_key act_id trans_id r); [by apply Hnew|done].
  - apply Forall_app. split; [done|]. constructor; [by apply Hnew|constructor].
Qed.

(** The core JSON of every row the store holds is a serialized
    transaction. *)
Lemma written_serialized (s : SQLiteStorage.db) :
  written s →
  Forall (λ r, ∃ t, serialize_transaction t = inr (SQLiteStorage.plaid_json r))
    (SQLiteStorage.transactions s).
Proof.
  set (P := λ s : SQLiteStorage.db,
    Forall (λ r, ∃ t, serialize_transaction t = inr (SQLiteStorage.plaid_json r))
      (SQLiteStorage.transactions s)).
  intros Hwritten. change (P s).
  induction Hwritten as [out|now transactions s _ IH|from_date to_date only_new s _ IH
                         |now update mark s _ IH|args s _ IH].
  - constructor.
  - apply (for_each_invariant P); [|done]. intros t s1 Hs1.
    rewrite sqlite_save_transaction_run.
    destruct (metadata_safe t); [|done].
    destruct (serialize_transaction t) as [e|json] eqn:Hjson; [done|].
    apply upsert_Forall; [done|]. intros r -> _. eauto.
  - unfold P. by rewrite transactions_get.
  - by rewrite sqlite_update_transaction_state.
  - destruct args; apply IH.
Qed.

Lemma select_only_new from_date to_date table :
  Forall (λ r, SQLiteStorage.plaid_json r !! "pulled_to_file" = None) table →
  SQLiteStorage.select (SQLiteStorage.conditions_of from_date to_date true) table =
  SQLiteStorage.select (SQLiteStorage.conditions_of from_date to_date false) table.
Proof.
  intros Hall. unfold SQLiteStorage.select. apply filter_ext_in. intros r Hin.
  rewrite Forall_forall in Hall. apply list_elem_of_In, Hall in Hin.
  assert (Hnew : SQLiteStorage.holds r SQLiteStorage.NotPulled = true).
  { simpl. unfold json_extract. by rewrite Hin. }
  unfold SQLiteStorage.conditions_of.
  destruct from_date as [f|], to_date as [t|]; try destruct (date_leb f t);
    cbn [app forallb]; by rewrite Hnew.
Qed.

(** X16: on the relational store [only_new] selects nothing.  The
    condition reads [pulled_to_file] from the core JSON, which is a
    serialized transaction and never has that key: whatever the store
    went through, [get_transactions(only_new=True)] and
    [get_transactions(only_new=False)] are the same call. *)
Theorem sqlite_only_new_has_no_effect from_date to_date (s : SQLiteStorage.db) :
  written s →
  SQLiteStorage.get_transactions from_date to_date true s =
  SQLiteStorage.get_transactions from_date to_date false s.
Proof.
  intros Hwritten. rewrite !sqlite_get_transactions_run, select_only_new; [done|].
  eapply Forall_impl; [by apply written_serialized|].
  intros r [t Ht]. by destruct (serialize_transaction_fields t _ Ht).
Qed.

Lemma sqlite_only_new_has_no_effect_witness :
  SQLiteStorage.get_transactions (Some (mk_date 2024 1 1)) None true Sample.stored_db =
  SQLiteStorage.get_transactions (Some (mk_date 2024 1 1)) None false Sample.stored_db.
Proof.
  apply (sqlite_only_new_has_no_effect (Some (mk_date 2024 1 1)) None Sample.stored_db).
  apply written_save, (written_empty []).
Defined.

(** A row written from a valid date decodes to its core fields, the date
    at midnight, and its metadata, [None] standing for none. *)
Lemma decode_fields r d :
  stored_on d r →
  (SQLiteStorage.metadata r = None ∨ ∃ m, SQLiteStorage.metadata r = Some (VDict m)) →
  ∃ rec, SQLiteStorage.decode r = inr rec ∧
    rec !! "date" = Some (VDateTime (combine_midnight d)) ∧
    rec !! "plaid2text" =
      Some (match SQLiteStorage.metadata r with
            | Some (VDict m) => if size m =? 0 then VNone else VDict m
            | _ => VNone
            end) ∧
    ∀ k, k ≠ "date" → k ≠ "plaid2text" → rec !! k = SQLiteStorage.plaid_json r !! k.
Proof.
  intros [Hvalid Hdate] Hmeta. unfold SQLiteStorage.decode.
  set (t0 := match SQLiteStorage.metadata r with
             | Some m => <["plaid2text":=m]> (SQLiteStorage.plaid_json r)
             | None => <["plaid2text":=VDict ∅]> (SQLiteStorage.plaid_json r)
             end).
  set (m0 := match SQLiteStorage.metadata r with
             | Some (VDict m) => m
             | _ => ∅
             end).
  assert (Hp : t0 !! "plaid2text" = Some (VDict m0)).
  { unfold t0, m0. destruct Hmeta as [->|[m ->]]; by rewrite lookup_insert_eq. }
  assert (Hother : ∀ k, k ≠ "plaid2text" → t0 !! k = SQLiteStorage.plaid_json r !! k).
  { intros k Hk. unfold t0. destruct (SQLiteStorage.metadata r);
      by rewrite lookup_insert_ne. }
  assert (Hp' : getitem t0 "plaid2text" = inr (VDict m0)).
  { unfold getitem. by rewrite Hp. }
  rewrite Hp', result_bind_inr. cbn [len]. rewrite result_bind_inr.
  set (t1 := if size m0 =? 0 then <["plaid2text":=VNone]> t0 else t0).
  assert (Hp1 : t1 !! "plaid2text" = Some (if size m0 =? 0 then VNone else VDict m0)).
  { unfold t1. destruct (size m0 =? 0); [by rewrite lookup_insert_eq|done]. }
  assert (Hother1 : ∀ k, k ≠ "plaid2text" → t1 !! k = SQLiteStorage.plaid_json r !! k).
  { intros k Hk. unfold t1. destruct (size m0 =? 0);
      rewrite ?lookup_insert_ne by done; by apply Hother. }
  assert (Hd1 : getitem t1 "date" = inr (VStr (date_isoformat d))).
  { unfold getitem. by rewrite Hother1, Hdate. }
  rewrite Hd1, result_bind_inr.
  unfold SQLiteStorage.parse.
  rewrite parse_iso_date_isoformat by done. rewrite result_bind_inr.
  eexists. split; [reflexivity|]. split; [by rewrite lookup_insert_eq|]. split.
  - rewrite lookup_insert_ne, Hp1 by done. f_equal. unfold m0.
    destruct Hmeta as [->|[m ->]]; [|done]. by rewrite map_size_empty.
  - intros k Hk1 Hk2. rewrite lookup_insert_ne by done. by apply Hother1.
Qed.

Lemma well_formed_row_stored r :
  well_formed_row r →
  SQLiteStorage.plaid_json r !! "pulled_to_file" = None ∧
  (∃ d, stored_on d r) ∧
  (SQLiteStorage.metadata r = None ∨ ∃ m, SQLiteStorage.metadata r = Some (VDict m)).
Proof.
  intros [(t & Ht & Hvalid) Hmeta].
  destruct (serialize_transaction_fields t _ Ht) as (Hpulled & _ & Hdate & _).
  split; [done|]. split; [|done]. by exists (Transaction.date t).
Qed.

Lemma decode_all_returns rows :
  Forall (λ r, ∃ rec, SQLiteStorage.decode r = inr rec) rows →
  ∃ ret, SQLiteStorage.decode_all rows = inr ret.
Proof.
  induction 1 as [|r rows [rec Hrec] _ [ret IH]]; [by eexists|].
  exists (rec :: ret). simpl. by rewrite Hrec, result_bind_inr, IH.
Qed.

(** X17: the round trip through the relational store.  Save a
    transaction that has an authorized date, and metadata that is absent
    or a mapping [json.dumps] accepts, into a table of rows the store
    wrote, then list the table: the call returns, and among the records
    is the one of the transaction, with its ids and amount, its date as
    a timestamp at midnight, and as [plaid2text] the metadata it
    carried, [None] when it carried none or an empty mapping. *)
Theorem sqlite_save_then_get now t only_new (s : SQLiteStorage.db) :
  storable t →
  Forall well_formed_row (SQLiteStorage.transactions s) →
  ∃ s' ret rec,
    SQLiteStorage.get_transactions None None only_new
      (SQLiteStorage.save_transactions now [t] s).1 = (s', inr ret) ∧
    rec ∈ ret ∧
    rec !! "transaction_id" = Some (VStr (Transaction.transaction_id t)) ∧
    rec !! "account_id" = Some (VStr (Transaction.account_id t)) ∧
    rec !! "amount" = Some (VNum (Transaction.amount t)) ∧
    rec !! "date" = Some (VDateTime (combine_midnight (Transaction.date t))) ∧
    rec !! "plaid2text" =
      Some (match SQLiteStorage.get_plaid2text t with
            | Some (VDict m) => if size m =? 0 then VNone else VDict m
            | _ => VNone
            end).
Proof.
  intros ([a Ha] & Hvalid & Hsafe & Hmeta) Hrows.
  pose proof (serialize_transaction_returns t) as Hjson. rewrite Ha in Hjson.
  destruct Hjson as (json & Hjson & _).
  destruct (serialize_transaction_fields t json Hjson)
    as (_ & _ & Hdate & Hid & Hact & Hamount).
  unfold SQLiteStorage.save_transactions.
  rewrite for_each_cons, sqlite_save_transaction_run, Hsafe, Hjson, for_each_nil.
  cbn [fst]. rewrite sqlite_get_transactions_run.
  unfold SQLiteStorage.with_table. cbn [SQLiteStorage.transactions SQLiteStorage.stdout].
  set (table := SQLiteStorage.upsert _ _ _ _ _ _).
  assert (Htable : Forall well_formed_row table).
  { apply upsert_Forall; [done|]. intros r Hr Hm. split.
    - exists t. by rewrite Hr.
    - by rewrite Hm. }
  assert (Hall : SQLiteStorage.select (SQLiteStorage.conditions_of None None only_new)
                   table = table).
  { transitivity (SQLiteStorage.select (SQLiteStorage.conditions_of None None false)
                    table).
    - destruct only_new; [|done]. apply select_only_new.
      eapply Forall_impl; [done|]. intros r Hr.
      by destruct (well_formed_row_stored r Hr).
    - unfold SQLiteStorage.select. simpl. by apply list_filter_all. }
  rewrite Hall.
  pose proof (find_upsert_same (strftime_utc now) (Transaction.account_id t)
                (Transaction.transaction_id t) json (SQLiteStorage.get_plaid2text t)
                (SQLiteStorage.transactions s)) as Hfind.
  fold table in Hfind. apply find_some in Hfind as [Hin _].
  set (r := match List.find _ (SQLiteStorage.transactions s) with
            | Some old => _
            | None => _
            end) in Hin.
  assert (Hjson_r : SQLiteStorage.plaid_json r = json).
  { unfold r. by destruct (List.find _ _). }
  assert (Hmeta_r : SQLiteStorage.metadata r = SQLiteStorage.get_plaid2text t).
  { unfold r. by destruct (List.find _ _). }
  destruct (decode_fields r (Transaction.date t))
    as (rec & Hrec & Hrec_date & Hrec_meta & Hrec_other).
  { split; [done|]. by rewrite Hjson_r. }
  { by rewrite Hmeta_r. }
  destruct (decode_all_returns table) as [ret Hret].
  { eapply Forall_impl; [done|]. intros r' Hr'.
    destruct (well_formed_row_stored r' Hr') as (_ & [d Hd] & Hm).
    destruct (decode_fields r' d Hd Hm) as (rec' & ? & _). eauto. }
  pose proof (decode_all_Forall2 table ret Hret) as Hdecoded.
  apply list_elem_of_In, list_elem_of_lookup in Hin as [i Hi].
  destruct (Forall2_lookup_l _ _ _ _ _ Hdecoded Hi) as (rec' & Hi' & Hrec').
  assert (rec' = rec) as -> by congruence.
  destruct table as [|first rest] eqn:Htab; [done|].
  eexists _, ret, rec. split; [by rewrite Hret|].
  split; [by eapply list_elem_of_lookup_2|].
  rewrite !Hrec_other, Hjson_r by done. split_and!; try done.
  by rewrite Hrec_meta, Hmeta_r.
Qed.

Lemma sqlite_save_then_get_witness :
  ∃ s' ret rec,
    SQLiteStorage.get_transactions None None true
      (SQLiteStorage.save_transactions Sample.now [Sample.t1_exported]
         Sample.empty_db).1 = (s', inr ret) ∧
    rec ∈ ret ∧
    rec !! "transaction_id" = Some (VStr "T1") ∧
    rec !! "account_id" = Some (VStr "A1") ∧
    rec !! "amount" = Some (VNum 1250) ∧
    rec !! "date" = Some (VDateTime (combine_midnight (mk_date 2024 1 5))) ∧
    rec !! "plaid2text" =
      Some (match SQLiteStorage.get_plaid2text Sample.t1_exported with
            | Some (VDict m) => if size m =? 0 then VNone else VDict m
            | _ => VNone
            end).
Proof.
  apply (sqlite_save_then_get Sample.now Sample.t1_exported true Sample.empty_db).
  - split; [by exists (mk_date 2024 1 4)|]. split; [reflexivity|].
    split; [by vm_compute|]. right. by eexists.
  - constructor.
Defined.

Lemma sqlite_get_transactions_returns_witness :
  ∃ s' ret,
    SQLiteStorage.get_transactions None None true Sample.stored_db = (s', inr ret).
Proof.
  apply (sqlite_get_transactions_returns None None true Sample.stored_db).
  - by vm_compute.
  - assert (Hrows : SQLiteStorage.select (SQLiteStorage.conditions_of None None true)
                      (SQLiteStorage.transactions Sample.stored_db)
                    = [Sample.row_T1]) by (by vm_compute).
    rewrite Hrows. constructor; [|constructor]. split.
    + exists (mk_date 2024 1 5). split; [reflexivity|by vm_compute].
    + left. by vm_compute.
Defined.

(** ** The transaction adapter *)

(** X19: [serialize_transaction] returns exactly on the transactions
    that have an authorized date.  The record it returns holds both
    dates as ISO text, from which the reader of the relational store
    gets the date back, at midnight; it holds no [plaid2text] and no
    [pulled_to_file]. *)
Theorem serialize_transaction_dates t :
  (is_Some (Transaction.authorized_date t) ↔
   ∃ data, serialize_transaction t = inr data) ∧
  ∀ data, serialize_transaction t = inr data →
    data !! "plaid2text" = None ∧
    data !! "pulled_to_file" = None ∧
    (∃ a, Transaction.authorized_date t = Some a ∧
          data !! "authorized_date" = Some (VStr (date_isoformat a))) ∧
    (valid_date (Transaction.date t) = true →
     getitem data "date" ≫= SQLiteStorage.parse
       = inr (VDateTime (combine_midnight (Transaction.date t)))).
Proof.
  pose proof (serialize_transaction_returns t) as Hrun. split.
  - destruct (Transaction.authorized_date t) as [a|].
    + destruct Hrun as (data & Hdata & _). split; eauto.
    + rewrite Hrun. split; [by intros []|by intros [? ?]].
  - intros data Hdata.
    destruct (serialize_transaction_fields t data Hdata) as (Hp & Hm & Hdate & _).
    split; [done|]. split; [done|].
    destruct (Transaction.authorized_date t) as [a|]; [|congruence].
    destruct Hrun as (data' & Hdata' & _ & Hauth & _).
    assert (data' = data) as -> by congruence. split; [eauto|].
    intros Hvalid. unfold getitem. rewrite Hdate, result_bind_inr.
    unfold SQLiteStorage.parse. by rewrite parse_iso_date_isoformat.
Qed.

Lemma serialize_transaction_dates_witness :
  ∃ data, serialize_transaction Sample.t1 = inr data ∧
    data !! "plaid2text" = None ∧
    data !! "pulled_to_file" = None ∧
    (∃ a, Transaction.authorized_date Sample.t1 = Some a ∧
          data !! "authorized_date" = Some (VStr (date_isoformat a))) ∧
    (valid_date (Transaction.date Sample.t1) = true →
     getitem data "date" ≫= SQLiteStorage.parse
       = inr (VDateTime (combine_midnight (Transaction.date Sample.t1)))).
Proof.
  destruct (proj1 (proj1 (serialize_transaction_dates Sample.t1))) as [data Hdata].
  - by exists (mk_date 2024 1 4).
  - exists data. split; [done|].
    exact (proj2 (serialize_transaction_dates Sample.t1) data Hdata).
Defined.

(** ** How the operations of the document store compose *)

(** X20: a download is idempotent on the document store.  Saving a
    transaction that was just saved, on the same day or a later one,
    returns and leaves the collection exactly as the first save left
    it. *)
Theorem mongo_resave_changes_nothing today today' t
    (c : MongoDBStorage.collection) :
  Transaction.plaid2text t = None →
  let c1 := (MongoDBStorage.save_transactions today [t] c).1 in
  MongoDBStorage.save_transactions today' [t] c1 = (c1, inr tt).
Proof.
  intros Hmeta c1. subst c1. unfold MongoDBStorage.save_transactions.
  rewrite !for_each_cons, !mongo_save_transaction_run, Hmeta.
  destruct (Transaction.pending t); [done|].
  rewrite !for_each_nil. cbn [fst].
  destruct (c !! Transaction.transaction_id t) as [doc|];
    rewrite lookup_insert_eq, insert_insert_eq;
    by rewrite (assoc_L (∪)), (idemp_L (∪)).
Qed.

Lemma mongo_resave_changes_nothing_witness :
  MongoDBStorage.save_transactions Sample.later [Sample.t1]
    (MongoDBStorage.save_transactions Sample.today [Sample.t1] Sample.exported_store).1
  = ((MongoDBStorage.save_transactions Sample.today [Sample.t1]
        Sample.exported_store).1, inr tt).
Proof.
  apply (mongo_resave_changes_nothing Sample.today Sample.later Sample.t1
           Sample.exported_store).
  reflexivity.
Defined.




(** ** Records without metadata *)

(** C8, as stated, fails on the document store: [get_transactions] hands
    out what is stored, and a stored document whose metadata is the
    empty mapping is returned with the empty mapping, not with [None]. *)
Lemma mongo_returns_empty_metadata :
  metadata_of <$> Sample.foreign !! "T9" = Some (Some (VDict ∅)) ∧
  field "plaid2text"
    (MongoDBStorage.get_transactions None None true Sample.foreign).2
    = inr [Some (VDict ∅)].
Proof. vm_compute. done. Qed.

(** C8 (amended).  On the relational store, whenever [get_transactions]
    returns, the record of every selected row carries [None] as its
    metadata when the metadata column is [NULL] or decodes to the empty
    mapping, carries the decoded mapping when that is not empty, and
    never carries the empty mapping; and the call does return when its
    selection is not empty and every selected row holds the date text of
    a valid date and a metadata column that is [NULL] or a mapping.  The
    document store does not normalise: every record carries the metadata
    of the stored document, as stored, and every stored document is
    listed so; on a collection the store built itself that is always a
    mapping that is not empty. *)
Theorem get_transactions_no_empty_metadata :
  (∀ from_date to_date only_new (s s' : SQLiteStorage.db) ret,
     SQLiteStorage.get_transactions from_date to_date only_new s = (s', inr ret) →
     Forall2 (λ r t,
         metadata_of t ≠ Some (VDict ∅) ∧
         ((SQLiteStorage.metadata r = None ∨
           SQLiteStorage.metadata r = Some (VDict ∅)) →
          metadata_of t = Some VNone) ∧
         (∀ m, SQLiteStorage.metadata r = Some (VDict m) → m ≠ ∅ →
               metadata_of t = Some (VDict m)))
       (SQLiteStorage.select (SQLiteStorage.conditions_of from_date to_date only_new)
          (SQLiteStorage.transactions s)) ret) ∧
  (∀ from_date to_date only_new (s : SQLiteStorage.db),
     let rows :=
       SQLiteStorage.select (SQLiteStorage.conditions_of from_date to_date only_new)
         (SQLiteStorage.transactions s) in
     rows ≠ [] →
     Forall (λ r, (∃ d, stored_on d r) ∧
                  (SQLiteStorage.metadata r = None ∨
                   ∃ m, SQLiteStorage.metadata r = Some (VDict m))) rows →
     ∃ s' ret,
       SQLiteStorage.get_transactions from_date to_date only_new s = (s', inr ret)) ∧
  (∀ from_date to_date only_new (c : MongoDBStorage.collection),
     ∃ ret,
       MongoDBStorage.get_transactions from_date to_date only_new c = (c, inr ret) ∧
       ∀ doc, doc ∈ ret →
         ∃ id fields, c !! id = Some fields ∧ doc !! "_id" = Some (VStr id) ∧
                      metadata_of doc = metadata_of fields) ∧
  (∀ (c : MongoDBStorage.collection) id fields,
     c !! id = Some fields →
     ∃ all doc,
       MongoDBStorage.get_transactions None None false c = (c, inr all) ∧
       doc ∈ all ∧ doc !! "_id" = Some (VStr id) ∧
       metadata_of doc = metadata_of fields) ∧
  (∀ from_date to_date only_new (c : MongoDBStorage.collection) ret,
     reachable c →
     MongoDBStorage.get_transactions from_date to_date only_new c = (c, inr ret) →
     ∀ doc, doc ∈ ret → ∃ m, metadata_of doc = Some (VDict m) ∧ m ≠ ∅).
Proof.
  split_and!.
  - intros from_date to_date only_new s s' ret Hget.
    eapply Forall2_impl; [by eapply sqlite_get_transactions_records|].
    intros r t Hrecord. by apply record_of_metadata.
  - intros from_date to_date only_new s rows Hrows Hall.
    rewrite sqlite_get_transactions_run. fold rows.
    assert (Hdecode : ∃ ret, SQLiteStorage.decode_all rows = inr ret).
    { clear Hrows. induction Hall as [|r rows' [[d Hd] Hm] _ [ret IH]]; [by eexists|].
      destruct (decode_returns r d Hd Hm) as (t & Ht & _).
      exists (t :: ret). simpl. by rewrite Ht, result_bind_inr, IH. }
    destruct Hdecode as [ret Hret].
    destruct rows as [|first rest]; [done|]. rewrite Hret. eauto.
  - intros from_date to_date only_new c.
    destruct (mongo_get_transactions_spec from_date to_date only_new c)
      as (ret & Hget & _ & Hret).
    exists ret. split; [done|]. intros doc Hin.
    apply Hret in Hin as (Hstored & _).
    apply elem_of_documents in Hstored as (id & fields & Hfields & ->).
    exists id, fields. split; [done|]. split; [by rewrite lookup_insert_eq|].
    unfold metadata_of. by rewrite lookup_insert_ne.
  - intros c id fields Hfields.
    destruct (mongo_get_transactions_spec None None false c)
      as (all & Hget & _ & Hall).
    exists all, (<["_id" := VStr id]> fields). split; [done|]. split.
    + apply Hall. split; [|done]. apply elem_of_documents. eauto.
    + split; [by rewrite lookup_insert_eq|].
      unfold metadata_of. by rewrite lookup_insert_ne.
  - intros from_date to_date only_new c ret Hreach Hget doc Hin.
    destruct (mongo_get_transactions_spec from_date to_date only_new c)
      as (ret' & Hget' & _ & Hret).
    rewrite Hget in Hget'. injection Hget' as <-.
    apply Hret in Hin as (Hstored & _).
    apply elem_of_documents in Hstored as (id & fields & Hfields & ->).
    unfold metadata_of. rewrite lookup_insert_ne by done.
    by destruct (reachable_stored c Hreach id fields Hfields).
Qed.

Lemma get_transactions_no_empty_metadata_witness :
  let s := (SQLiteStorage.save_transactions Sample.now [Sample.t1_exported; Sample.t3]
              Sample.empty_db).1 in
  (∃ s' ret,
     SQLiteStorage.get_transactions None None true s = (s', inr ret) ∧
     Forall2 (λ r t,
         metadata_of t ≠ Some (VDict ∅) ∧
         ((SQLiteStorage.metadata r = None ∨
           SQLiteStorage.metadata r = Some (VDict ∅)) →
          metadata_of t = Some VNone) ∧
         (∀ m, SQLiteStorage.metadata r = Some (VDict m) → m ≠ ∅ →
               metadata_of t = Some (VDict m)))
       (SQLiteStorage.select (SQLiteStorage.conditions_of None None true)
          (SQLiteStorage.transactions s)) ret) ∧
  (∃ ret,
     MongoDBStorage.get_transactions None None true Sample.stored
       = (Sample.stored, inr ret) ∧
     ∀ doc, doc ∈ ret → ∃ m, metadata_of doc = Some (VDict m) ∧ m ≠ ∅).
Proof.
  intros s. split.
  - destruct (returns_inr (SQLiteStorage.get_transactions None None true s))
      as (s' & ret & Hget); [by vm_compute|].
    exists s', ret. split; [done|].
    exact (proj1 get_transactions_no_empty_metadata None None true s s' ret Hget).
  - destruct (mongo_get_transactions_spec None None true Sample.stored)
      as (ret & Hget & _).
    exists ret. split; [done|].
    apply (proj2 (proj2 (proj2 (proj2 get_transactions_no_empty_metadata)))
             None None true Sample.stored ret); [|done].
    apply reachable_save, reachable_empty.
Defined.
